(** * chora: resolution and dispatch of file-system backed HTTP responses

    A shallow embedding of [src/chora/handler.py] (class
    [ChoraHTTPRequestHandler]) and the properties of its resolution and
    dispatch engine.

    Layout: the Python built-ins the handler leans on ([str], [dict],
    [pathlib], [urllib.parse]) come first, each in its own module, then the
    handler itself, then the example file systems, then the facts. *)

From Stdlib Require Import List String Ascii NArith ZArith Lia Bool Arith.
Import ListNotations.

Local Open Scope char_scope.
Local Open Scope list_scope.

(* ================================================================== *)
(** ** Python [str] *)
(* ================================================================== *)

Module PyStr.

(** A [str] is held as its UTF-8 encoding, [bytes] as they are: both are
    sequences of 8-bit characters.  Decoding checks the bytes ([utf8_valid])
    and leaves them as they stand, so a text and the bytes of the file that
    holds it are the same sequence. *)
Definition str := list ascii.

Definition lit (s : string) : str := list_ascii_of_string s.

Definition str_eq_dec : forall a b : str, {a = b} + {a <> b} :=
  list_eq_dec ascii_dec.

Definition str_eqb (a b : str) : bool :=
  if str_eq_dec a b then true else false.
Arguments str_eqb : simpl never.

(** [c in s] for a one-character [c]. *)
Definition in_ (c : ascii) (s : str) : bool := existsb (Ascii.eqb c) s.

(** [str.isspace] on the ASCII range: TAB..CR, FS..US and the space (no
    other single byte is white space). *)
Definition isspace (c : ascii) : bool :=
  let n := nat_of_ascii c in
  (((9 <=? n) && (n <=? 13)) || ((28 <=? n) && (n <=? 32)))%nat.

Fixpoint lstrip_by (p : ascii -> bool) (s : str) : str :=
  match s with
  | c :: r => if p c then lstrip_by p r else s
  | [] => []
  end.

Definition rstrip_by (p : ascii -> bool) (s : str) : str :=
  rev (lstrip_by p (rev s)).

Definition strip_by (p : ascii -> bool) (s : str) : str :=
  rstrip_by p (lstrip_by p s).

(** *** UTF-8 *)

Definition code (c : ascii) : N := N_of_ascii c.

Definition between (lo hi : N) (c : ascii) : bool :=
  ((lo <=? code c) && (code c <=? hi))%N.

Definition continuation : ascii -> bool := between 128 191.

(** The second byte of a sequence of three or four: no overlong form, no
    surrogate, nothing past U+10FFFF. *)
Definition second3 (a b : ascii) : bool :=
  if (code a =? 224)%N then between 160 191 b
  else if (code a =? 237)%N then between 128 159 b
  else continuation b.

Definition second4 (a b : ascii) : bool :=
  if (code a =? 240)%N then between 144 191 b
  else if (code a =? 244)%N then between 128 143 b
  else continuation b.

(** What [bytes.decode()] and a file opened as text accept (strict
    UTF-8). *)
Fixpoint utf8_valid (s : str) : bool :=
  match s with
  | [] => true
  | a :: r1 =>
      if (code a <? 128)%N then utf8_valid r1
      else
        match r1 with
        | [] => false
        | b :: r2 =>
            if between 194 223 a then continuation b && utf8_valid r2
            else
              match r2 with
              | [] => false
              | c :: r3 =>
                  if between 224 239 a
                  then second3 a b && continuation c && utf8_valid r3
                  else
                    match r3 with
                    | [] => false
                    | d :: r4 =>
                        between 240 244 a && second4 a b &&
                        continuation c && continuation d && utf8_valid r4
                    end
              end
        end
  end.

(** The code point of a sequence of two, three and four bytes. *)
Definition cp2 (a b : ascii) : N :=
  ((code a - 192) * 64 + (code b - 128))%N.

Definition cp3 (a b c : ascii) : N :=
  ((code a - 224) * 4096 + (code b - 128) * 64 + (code c - 128))%N.

Definition cp4 (a b c d : ascii) : N :=
  ((code a - 240) * 262144 + (code b - 128) * 4096 + (code c - 128) * 64
   + (code d - 128))%N.

(** Universal newlines, as a file or a pipe opened as text gives them: CR
    LF and a CR on its own are read as LF. *)
Fixpoint translate_newlines (s : str) : str :=
  match s with
  | [] => []
  | a :: r =>
      if Ascii.eqb a "013" then
        match r with
        | b :: r' =>
            if Ascii.eqb b "010" then "010" :: translate_newlines r'
            else "010" :: translate_newlines r
        | [] => ["010"]
        end
      else a :: translate_newlines r
  end.

(** *** White space *)

(** [Py_UNICODE_ISSPACE] on a code point: what [str.isspace] knows. *)
Definition unicode_space (n : N) : bool :=
  (((9 <=? n) && (n <=? 13)) || ((28 <=? n) && (n <=? 32)) ||
   (n =? 133) || (n =? 160) || (n =? 5760) ||
   ((8192 <=? n) && (n <=? 8202)) || (n =? 8232) || (n =? 8233) ||
   (n =? 8239) || (n =? 8287) || (n =? 12288))%N.

(** The white space of two and of three bytes (there is none of four). *)
Definition space2 (a b : ascii) : bool :=
  between 194 223 a && continuation b && unicode_space (cp2 a b).

Definition space3 (a b c : ascii) : bool :=
  between 224 239 a && second3 a b && continuation c &&
  unicode_space (cp3 a b c).

(** Dropping from the front what [p1] says of one byte, [p2] of two and
    [p3] of three. *)
Fixpoint lstrip_with (p1 : ascii -> bool) (p2 : ascii -> ascii -> bool)
  (p3 : ascii -> ascii -> ascii -> bool) (s : str) : str :=
  match s with
  | [] => []
  | a :: r1 =>
      if p1 a then lstrip_with p1 p2 p3 r1
      else
        match r1 with
        | [] => s
        | b :: r2 =>
            if p2 a b then lstrip_with p1 p2 p3 r2
            else
              match r2 with
              | [] => s
              | c :: r3 =>
                  if p3 a b c then lstrip_with p1 p2 p3 r3 else s
              end
        end
  end.

(** [s.lstrip()] and [s.rstrip()]; from the end the bytes of a character
    come last first. *)
Definition lstrip : str -> str := lstrip_with isspace space2 space3.

Definition rstrip (s : str) : str :=
  rev (lstrip_with isspace (fun b a => space2 a b)
                   (fun c b a => space3 a b c) (rev s)).

(** [s.strip()] *)
Definition strip (s : str) : str := rstrip (lstrip s).

(** [s.strip(chars)] *)
Definition strip_chars (chars : str) : str -> str :=
  strip_by (fun c => in_ c chars).

(** The text before and after the first [sep], when there is one. *)
Fixpoint cut (sep : ascii) (s : str) : option (str * str) :=
  match s with
  | [] => None
  | c :: r =>
      if Ascii.eqb c sep then Some ([], r)
      else match cut sep r with
           | Some (a, b) => Some (c :: a, b)
           | None => None
           end
  end.

(** [s.split(sep, maxsplit)] for a one-character [sep]. *)
Fixpoint split_max (sep : ascii) (maxsplit : nat) (s : str) : list str :=
  match maxsplit with
  | 0 => [s]
  | S n =>
      match cut sep s with
      | None => [s]
      | Some (a, b) => a :: split_max sep n b
      end
  end.

(** [s.split(sep)]: a text of length [n] holds at most [n] separators. *)
Definition split (sep : ascii) (s : str) : list str :=
  split_max sep (List.length s) s.

(** [s[:s.find(c)]] when [c] occurs, the whole of [s] otherwise. *)
Fixpoint before (c : ascii) (s : str) : str :=
  match s with
  | [] => []
  | x :: r => if Ascii.eqb x c then [] else x :: before c r
  end.

(** [s.find(c)] *)
Fixpoint find (c : ascii) (s : str) : option nat :=
  match s with
  | [] => None
  | x :: r => if Ascii.eqb x c then Some 0 else option_map S (find c r)
  end.

Definition isdigit (c : ascii) : bool :=
  let n := nat_of_ascii c in ((48 <=? n) && (n <=? 57))%nat.

Definition isalpha (c : ascii) : bool :=
  let n := nat_of_ascii c in
  (((65 <=? n) && (n <=? 90)) || ((97 <=? n) && (n <=? 122)))%nat.

Definition lower_char (c : ascii) : ascii :=
  let n := nat_of_ascii c in
  if ((65 <=? n) && (n <=? 90))%nat then ascii_of_nat (n + 32) else c.

Definition lower (s : str) : str := map lower_char s.

Definition digit_val (c : ascii) : option Z :=
  if isdigit c then Some (Z.of_nat (nat_of_ascii c - 48)%nat) else None.

(** The digits of an integer literal: decimal digits, single underscores
    allowed between two digits only. *)
Fixpoint digits_val (acc : Z) (after_digit : bool) (s : str) : option Z :=
  match s with
  | [] => if after_digit then Some acc else None
  | c :: r =>
      if Ascii.eqb c "_" then
        if after_digit then digits_val acc false r else None
      else
        match digit_val c with
        | Some d => digits_val (10 * acc + d)%Z true r
        | None => None
        end
  end.

(** *** [int(s)] *)

(** [Py_ISSPACE]: the white space of the C locale. *)
Definition Py_ISSPACE (c : ascii) : bool :=
  let n := nat_of_ascii c in (((9 <=? n) && (n <=? 13)) || (n =? 32))%nat.

(** The code points of the digit zero of every decimal system of Unicode
    14.0 (the one CPython 3.11 carries); the nine that follow each are its
    digits one to nine. *)
Definition decimal_zeros : list N :=
  [48; 1632; 1776; 1984; 2406; 2534; 2662; 2790; 2918; 3046; 3174; 3302;
   3430; 3558; 3664; 3792; 3872; 4160; 4240; 6112; 6160; 6470; 6608; 6784;
   6800; 6992; 7088; 7232; 7248; 42528; 43216; 43264; 43472; 43504; 43600;
   44016; 65296; 66720; 68912; 69734; 69872; 69942; 70096; 70384; 70736;
   70864; 71248; 71360; 71472; 71904; 72016; 72784; 73040; 73120; 92768;
   92864; 93008; 120782; 120792; 120802; 120812; 120822; 123200; 123632;
   125264; 130032]%N.

(** [Py_UNICODE_TODECIMAL] *)
Fixpoint to_decimal (zeros : list N) (n : N) : option N :=
  match zeros with
  | [] => None
  | z :: rest =>
      if ((z <=? n) && (n <? z + 10))%N then Some (n - z)%N
      else to_decimal rest n
  end.

(** One character that is not ASCII, as [int] reads it: white space
    becomes a blank, a decimal digit its ASCII digit, anything else [?]. *)
Definition transform_char (n : N) : ascii :=
  if unicode_space n then " "
  else match to_decimal decimal_zeros n with
       | Some d => ascii_of_N (48 + d)
       | None => "?"
       end.

(** [_PyUnicode_TransformDecimalAndSpaceToASCII] on a text that is not
    ASCII: the characters below 127 stay, the conversion stops at the
    first [?]. *)
Fixpoint transform (s : str) : str :=
  match s with
  | [] => []
  | a :: r1 =>
      if (code a <? 127)%N then a :: transform r1
      else if (code a <? 128)%N then ["?"]
      else
        match r1 with
        | [] => ["?"]
        | b :: r2 =>
            if between 194 223 a then
              let t := transform_char (cp2 a b) in
              if Ascii.eqb t "?" then ["?"] else t :: transform r2
            else
              match r2 with
              | [] => ["?"]
              | c :: r3 =>
                  if between 224 239 a then
                    let t := transform_char (cp3 a b c) in
                    if Ascii.eqb t "?" then ["?"] else t :: transform r3
                  else
                    match r3 with
                    | [] => ["?"]
                    | d :: r4 =>
                        let t := transform_char (cp4 a b c d) in
                        if Ascii.eqb t "?" then ["?"] else t :: transform r4
                    end
              end
        end
  end.

Definition isascii (s : str) : bool := forallb (fun c => (code c <? 128)%N) s.

(** [sys.get_int_max_str_digits()], as the interpreter starts. *)
Definition int_max_str_digits : nat := 4300.

(** The digits of a literal: no more of them than the limit (the
    underscores do not count, the leading zeros do). *)
Definition digits_within (r : str) : option Z :=
  if (int_max_str_digits <? List.length (filter isdigit r))%nat then None
  else digits_val 0%Z false r.

(** [PyLong_FromString] in base ten: white space of the C locale at either
    end, an optional sign, the digits. *)
Definition long_from_string (s : str) : option Z :=
  match strip_by Py_ISSPACE s with
  | c :: r =>
      if Ascii.eqb c "-" then option_map Z.opp (digits_within r)
      else if Ascii.eqb c "+" then digits_within r
      else digits_within (c :: r)
  | [] => None
  end.

(** [int(s)] for a [str]; [None] stands for [ValueError]. *)
Definition int_ (s : str) : option Z :=
  long_from_string (if isascii s then s else transform s).

End PyStr.

(* ================================================================== *)
(** ** Python [dict] with [str] keys: insertion ordered *)
(* ================================================================== *)

Module PyDict.
Import PyStr.

(** A [dict] keeps its keys in the order of their first insertion; an
    association list without repeated keys carries exactly that. *)
Definition dict := list (str * str).

(** [d[k] = v] *)
Fixpoint setitem (d : dict) (k v : str) : dict :=
  match d with
  | [] => [(k, v)]
  | (k', v') :: r =>
      if str_eqb k' k then (k', v) :: r else (k', v') :: setitem r k v
  end.

(** [d.get(k)] *)
Fixpoint get (d : dict) (k : str) : option str :=
  match d with
  | [] => None
  | (k', v') :: r => if str_eqb k' k then Some v' else get r k
  end.

Definition keys (d : dict) : list str := map fst d.

End PyDict.

(* ================================================================== *)
(** ** [pathlib.Path] (POSIX flavour) *)
(* ================================================================== *)

Module PurePath.
Import PyStr.

(** A path is its [parts] tuple: the root ([/] or [//]) first when the path
    is absolute, then the segments. *)
Definition Path := list str.

Definition path_eq_dec : forall p q : Path, {p = q} + {p <> q} :=
  list_eq_dec str_eq_dec.

Definition is_root (s : str) : bool :=
  match s with
  | c :: _ => Ascii.eqb c "/"
  | [] => false
  end.

Definition is_absolute (p : Path) : bool :=
  match p with
  | r :: _ => is_root r
  | [] => false
  end.

(** [posixpath.splitroot]: exactly two leading slashes are a root of their
    own, one slash or three and more are the root [/]. *)
Definition splitroot (s : str) : str * str :=
  if negb (is_root s) then ([], s)
  else if negb (is_root (skipn 1 s)) || is_root (skipn 2 s)
       then (["/"], skipn 1 s)
       else (["/"; "/"], skipn 2 s).

(** A segment that survives parsing: neither empty nor [.] *)
Definition keeps (x : str) : bool :=
  negb (str_eqb x [] || str_eqb x ["."]).

(** The parts of one path string. *)
Definition parse (s : str) : Path :=
  let '(root, rel) := splitroot s in
  let tail := filter keeps (split "/" rel) in
  match root with
  | [] => tail
  | _ => root :: tail
  end.

(** [p.joinpath(q)]: an absolute [q] replaces [p]. *)
Definition joinpath (p q : Path) : Path :=
  if is_absolute q then q else p ++ q.

(** [Path(s1, ..., sn)] *)
Definition Path_ (segments : list str) : Path :=
  fold_left (fun acc s => joinpath acc (parse s)) segments [].

(** [p / s] for a string [s] *)
Definition truediv (p : Path) (s : str) : Path := joinpath p (parse s).

(** [p.parent]: the anchor and the empty path are their own parents. *)
Definition parent (p : Path) : Path :=
  match p with
  | [] => []
  | [r] => if is_root r then p else []
  | _ => removelast p
  end.

(** What [parts] can hold: segments without separator, not empty, not [.];
    a root only in front. *)
Definition seg_ok (s : str) : bool := keeps s && negb (in_ "/" s).

Definition root_ok (s : str) : bool :=
  str_eqb s ["/"] || str_eqb s ["/"; "/"].

Definition wf (p : Path) : bool :=
  match p with
  | [] => true
  | h :: t => (root_ok h || seg_ok h) && forallb seg_ok t
  end.

End PurePath.

Module PathNotations.
Infix "//" := PurePath.truediv (at level 40, left associativity).
End PathNotations.

(* ================================================================== *)
(** ** [urllib.parse.urlparse(url).path] *)
(* ================================================================== *)

Module UrlParse.
Import PyStr.

(** CPython's [urlsplit] and [urlparse] for a [str] argument, as far as the
    [path] field goes: leading control characters and spaces are dropped,
    TAB, CR and LF removed, then the scheme, the network location, the
    fragment, the query and the parameters of the last segment are split
    off, in that order.  A network location with one square bracket and not
    the other raises [ValueError]; the checks that come after it (the
    address between the brackets, a host that is not ASCII under NFKC) bear
    on targets that name a network location only and are not modelled. *)

Definition c0_control_or_space (c : ascii) : bool :=
  (nat_of_ascii c <=? 32)%nat.

Definition unsafe_byte (c : ascii) : bool :=
  in_ c ["009"; "013"; "010"].

Definition scheme_char (c : ascii) : bool :=
  isalpha c || isdigit c || in_ c ["+"; "-"; "."].

Definition first_is_alpha (url : str) : bool :=
  match url with
  | c :: _ => isalpha c
  | [] => false
  end.

(** The lower-cased scheme and the rest of the URL. *)
Definition split_scheme (url : str) : str * str :=
  match find ":" url with
  | Some (S i) =>
      if first_is_alpha url && forallb scheme_char (firstn (S i) url)
      then (lower (firstn (S i) url), skipn (S (S i)) url)
      else ([], url)
  | _ => ([], url)
  end.

Definition netloc_end (c : ascii) : bool := in_ c ["/"; "?"; "#"].

(** [url[delim:]] for the first [delim] that holds one of [/?#]. *)
Fixpoint from_delim (s : str) : str :=
  match s with
  | [] => []
  | c :: r => if netloc_end c then s else from_delim r
  end.

(** [_splitnetloc(url, 2)[1]] when [url[:2] == '//']. *)
Definition drop_netloc (url : str) : str :=
  match url with
  | a :: b :: r =>
      if Ascii.eqb a "/" && Ascii.eqb b "/" then from_delim r else url
  | _ => url
  end.

(** [urlsplit(url)]: the scheme and the path. *)
Definition urlsplit (url : str) : str * str :=
  let url := lstrip_by c0_control_or_space url in
  let url := filter (fun c => negb (unsafe_byte c)) url in
  let '(scheme, url) := split_scheme url in
  let url := drop_netloc url in
  let url := before "#" url in
  let url := before "?" url in
  (scheme, url).

(** [_splitnetloc(url, 2)[0]]: what stands before the first of [/?#]. *)
Fixpoint upto_delim (s : str) : str :=
  match s with
  | [] => []
  | c :: r => if netloc_end c then [] else c :: upto_delim r
  end.

(** [urlsplit(url).netloc] *)
Definition netloc (url : str) : str :=
  let url := lstrip_by c0_control_or_space url in
  let url := filter (fun c => negb (unsafe_byte c)) url in
  let '(_, url) := split_scheme url in
  match url with
  | a :: b :: r =>
      if Ascii.eqb a "/" && Ascii.eqb b "/" then upto_delim r else []
  | _ => []
  end.

(** [urlsplit(url)] raises [ValueError("Invalid IPv6 URL")]. *)
Definition urlsplit_raises (url : str) : bool :=
  let netloc := netloc url in
  (in_ "[" netloc && negb (in_ "]" netloc)) ||
  (in_ "]" netloc && negb (in_ "[" netloc)).

Definition uses_params : list str :=
  map lit [""; "ftp"; "hdl"; "prospero"; "http"; "imap"; "https"; "shttp";
           "rtsp"; "rtsps"; "rtspu"; "sip"; "sips"; "mms"; "sftp";
           "tel"]%string.

(** [_splitparams(url)[0]]: the first [;] of the last segment ends the
    path. *)
Definition splitparams (url : str) : str :=
  let last_segment := rev (before "/" (rev url)) in
  let upto_slash := firstn (List.length url - List.length last_segment) url in
  upto_slash ++ before ";" last_segment.

Definition urlparse_path (url : str) : str :=
  let '(scheme, url) := urlsplit url in
  if existsb (str_eqb scheme) uses_params && in_ ";" url
  then splitparams url
  else url.

End UrlParse.

(* ================================================================== *)
(** ** The handler: [ChoraHTTPRequestHandler] *)
(* ================================================================== *)

Module Chora.
Import PyStr PyDict PurePath UrlParse PathNotations.

(** *** Exceptions *)

(** The class of the exception raised ([UnicodeDecodeError] and
    [UnicodeEncodeError] are subclasses of [ValueError] in Python). *)
Inductive exn : Type :=
| FileNotFoundError
| IsADirectoryError
| PermissionError
| ValueError
| UnicodeDecodeError
| UnicodeEncodeError
| OverflowError
| CalledProcessError (returncode : Z)
| OSError.

Inductive result (A : Type) : Type :=
| Return (a : A)
| Raise (e : exn).
Arguments Return {A} a.
Arguments Raise {A} e.

Definition bind {A B : Type} (m : result A) (k : A -> result B) : result B :=
  match m with
  | Return a => k a
  | Raise e => Raise e
  end.

Notation "x <- m ;; k" := (bind m (fun x => k))
  (at level 61, m at next level, right associativity).

(** *** The file system and the programs in it *)

Inductive node : Type :=
| Dir
| File (content : str) (x_ok : bool).

(** The working directory of the server, as its segments below the root,
    and what every absolute path names.  Symbolic links and [..] are the
    oracle's business; every file can be read and every name looked up
    (no permission or length of a name stands in the way). *)
Record FS : Type := mkFS {
  cwd_segments : list str;
  stat : Path -> option node
}.

(** [Path.cwd()] *)
Definition cwd (fs : FS) : Path := ["/"] :: cwd_segments fs.

(** [p.absolute()] *)
Definition absolute (fs : FS) (p : Path) : Path :=
  if is_absolute p then p else cwd fs ++ p.

Definition lookup (fs : FS) (p : Path) : option node :=
  stat fs (absolute fs p).

(** [p.exists()] *)
Definition exists_ (fs : FS) (p : Path) : bool :=
  match lookup fs p with
  | Some _ => true
  | None => false
  end.

(** [p.is_dir()] *)
Definition is_dir (fs : FS) (p : Path) : bool :=
  match lookup fs p with
  | Some Dir => true
  | _ => false
  end.

(** [os.access(p, os.X_OK)]: directories are searchable. *)
Definition access_x (fs : FS) (p : Path) : bool :=
  match lookup fs p with
  | Some Dir => true
  | Some (File _ x) => x
  | None => false
  end.

(** [open(p)] and reading all there is *)
Definition read (fs : FS) (p : Path) : result str :=
  match lookup fs p with
  | Some (File content _) => Return content
  | Some Dir => Raise IsADirectoryError
  | None => Raise FileNotFoundError
  end.

(** [b.decode()]: UTF-8, strict. *)
Definition decode (b : str) : result str :=
  if utf8_valid b then Return b else Raise UnicodeDecodeError.

(** [p.read_bytes()] *)
Definition read_bytes : FS -> Path -> result str := read.

(** [p.read_text()]: the bytes decoded as UTF-8 (the encoding of the
    locale the server is taken to run in), line ends read as LF. *)
Definition read_text (fs : FS) (p : Path) : result str :=
  b <- read fs p ;;
  text <- decode b ;;
  Return (translate_newlines text).

(** The request as [BaseHTTPRequestHandler] holds it once the request
    line and the headers are parsed, for a request line that names its
    version (HTTP/1.0 and later); [rfile] is what the client sends after
    the headers. *)
Record Request : Type := mkRequest {
  requestline : str;
  path : str;
  headers : list (str * str);
  rfile : str
}.

(** The three artifacts of the scratch directory. *)
Record Snapshot : Type := mkSnapshot {
  REQUEST : str;
  HEADERS : str;
  DATA : str
}.

(** What running a program with [text=True] comes to: it exits with a
    return code and its captured standard output as text (decoded, the line
    ends read as LF), or exits with an output or error stream that is not
    UTF-8, or cannot be started. *)
Inductive completed : Type :=
| Exited (returncode : Z) (stdout : str)
| Undecodable
| Spawn_failed (e : exn).

Definition TEMPLATE : str := lit "__TEMPLATE__".
Definition HANDLE : str := lit "HANDLE".
Definition STATUS_ : str := lit "STATUS".
Definition DATA_ : str := lit "DATA".
Definition HEADERS_ : str := lit "HEADERS".

(** *** [_get_directory] *)

(** [for i in range(len(parts), 0, -1)], at [i = S i']. *)
Fixpoint _get_directory_loop (fs : FS) (parts : list str) (i : nat)
  : option Path :=
  match i with
  | 0 => None
  | S i' =>
      let candidate := Path_ (firstn i' parts ++ TEMPLATE :: skipn i parts) in
      if exists_ fs candidate && is_dir fs candidate then Some candidate
      else _get_directory_loop fs parts i'
  end.

Definition _get_directory (fs : FS) (directory : Path) : option Path :=
  if is_dir fs directory then Some directory
  else
    let parts := directory in
    _get_directory_loop fs parts (List.length parts).

(** *** [_static_handler] *)

(** One turn of the loop over the lines of HEADERS. *)
Definition header_line (response_headers : dict) (line : str) : result dict :=
  if in_ ":" line then
    match split_max ":" 1 line with
    | [key; value] => Return (setitem response_headers (strip key) (strip value))
    | _ => Raise ValueError
    end
  else Return response_headers.

Fixpoint header_lines (response_headers : dict) (lines : list str)
  : result dict :=
  match lines with
  | [] => Return response_headers
  | line :: rest =>
      d <- header_line response_headers line ;;
      header_lines d rest
  end.

Definition to_int (s : str) : result Z :=
  match int_ s with
  | Some n => Return n
  | None => Raise ValueError
  end.

Definition _static_handler (fs : FS) (directory : Path)
  : result (Z * str * dict) :=
  let status_file := directory // STATUS_ in
  status_text <- read_text fs status_file ;;
  status_code <- to_int (strip status_text) ;;
  let data_file := directory // DATA_ in
  response_data <- read_bytes fs data_file ;;
  let headers_file := directory // HEADERS_ in
  headers_text <- read_text fs headers_file ;;
  let headers_content := strip headers_text in
  response_headers <- header_lines [] (split "010" headers_content) ;;
  Return (status_code, response_data, response_headers).

(** *** [_cache_request] *)

(** [self.headers.get(name)]: the first header of that name, whatever its
    case. *)
Fixpoint headers_get (hs : list (str * str)) (name : str) : option str :=
  match hs with
  | [] => None
  | (k, v) :: r =>
      if str_eqb (lower k) (lower name) then Some v else headers_get r name
  end.

Definition PY_SSIZE_T_MAX : Z := 2 ^ 63 - 1.

(** The greatest length of a [bytes] object: its header and the closing
    zero byte take 33 bytes. *)
Definition bytes_max : Z := PY_SSIZE_T_MAX - 33.

(** [rfile.read(n)] of the buffered reader, on a 64-bit platform: [n]
    bytes or as many as come, all of them for [-1]; a length below [-1] is
    refused, one that is no index or no length of a [bytes] object
    overflows.  The memory is taken to hold what is asked for. *)
Definition rfile_read (stream : str) (n : Z) : result str :=
  if ((n <? - PY_SSIZE_T_MAX - 1) || (PY_SSIZE_T_MAX <? n))%Z
  then Raise OverflowError
  else if (n <? -1)%Z then Raise ValueError
  else if (n =? -1)%Z then Return stream
  else if (bytes_max <? n)%Z then Raise OverflowError
  else Return (firstn (Z.to_nat n) stream).

Definition header_text (kv : str * str) : str :=
  fst kv ++ lit ": " ++ snd kv ++ ["010"].

Definition _cache_request (req : Request) : result Snapshot :=
  let request_file := requestline req in
  let headers_file := List.concat (map header_text (headers req)) in
  content_length <-
    match headers_get (headers req) (lit "Content-Length") with
    | Some v => to_int v
    | None => Return 0%Z
    end ;;
  received <- rfile_read (rfile req) content_length ;;
  body <- decode received ;;
  Return (mkSnapshot request_file headers_file body).


(** *** Sending the response *)

(** [s.encode('latin-1', 'strict')] succeeds: no character past U+00FF,
    which in UTF-8 is no byte from 0xC4 on. *)
Definition latin1 (s : str) : bool := forallb (fun c => (code c <? 196)%N) s.

(** [send_header(key, value)] does not raise. *)
Definition sendable (kv : str * str) : bool :=
  latin1 (fst kv) && latin1 (snd kv).

(** *** [get_handler] and [_dynamic_handler] *)

(** The outcome of a request: the status, the headers and the data handed
    to [send_response], [send_header] and [wfile.write], or the exception
    that leaves [_handle_request]. *)
Inductive outcome : Type :=
| Responded (status_code : Z) (response_headers : dict) (data : str)
| Uncaught (e : exn).

Section Dispatch.

(** Running the program at a path with the scratch directory as its
    argument, in a file system: what it comes to, and the files it leaves
    behind. *)
Variable exec : FS -> Path -> Snapshot -> completed * (Path -> option node).

(** [subprocess.run([handler, tmpdir], capture_output=True, text=True,
    check=True).stdout] *)
Definition subprocess_run (fs : FS) (handler : Path) (snap : Snapshot)
  : FS * result str :=
  let '(proc, stat') := exec fs handler snap in
  let fs' := mkFS (cwd_segments fs) stat' in
  match proc with
  | Spawn_failed e => (fs', Raise e)
  | Undecodable => (fs', Raise UnicodeDecodeError)
  | Exited returncode stdout =>
      if (returncode =? 0)%Z then (fs', Return stdout)
      else (fs', Raise (CalledProcessError returncode))
  end.

(** [_dynamic_handler], with the call back into [get_handler] as an
    argument. *)
Definition _dynamic_handler
  (get_handler : FS -> Path -> option (FS * result Path))
  (snap : Snapshot) (fs : FS) (directory : Path)
  : option (FS * result Path) :=
  let handler := absolute fs (directory // HANDLE) in
  if negb (access_x fs handler) then Some (fs, Raise PermissionError)
  else
    match subprocess_run fs (absolute fs handler) snap with
    | (fs', Raise e) => Some (fs', Raise e)
    | (fs', Return stdout) =>
        let output := strip stdout in
        let response_dir := Path_ [output] in
        let response_dir :=
          if negb (is_absolute response_dir)
          then joinpath (parent handler) response_dir
          else response_dir in
        get_handler fs' response_dir
    end.

(** [get_handler]; the fuel bounds the depth of the recursion through
    [_dynamic_handler], [None] is a recursion that has not ended within
    it.  The handler sets no bound of its own: the only one is the room the
    interpreter has left on its call stack, where it ends a deeper
    recursion with [RecursionError].  The handler returned is
    [partial(self._static_handler, directory)], held as its [directory]. *)
Fixpoint get_handler (fuel : nat) (snap : Snapshot) (fs : FS)
  (directory : Path) : option (FS * result Path) :=
  match fuel with
  | 0 => None
  | S fuel' =>
      match _get_directory fs directory with
      | None => Some (fs, Raise FileNotFoundError)
      | Some directory =>
          if exists_ fs (directory // HANDLE)
          then _dynamic_handler (get_handler fuel' snap) snap fs directory
          else Some (fs, Return directory)
      end
  end.

(** [root_dir / path / method] for the request target [target] *)
Definition method_dir (root_dir : Path) (target method : str) : Path :=
  let parsed_url_path := urlparse_path target in
  let path := strip_chars ["/"] parsed_url_path in
  root_dir // path // method.

(** [_handle_request]: [urlparse] comes first, the headers are encoded
    as they are sent. *)
Definition _handle_request (fuel : nat) (root_dir : Path) (fs : FS)
  (req : Request) (method : str) : option (FS * outcome) :=
  if urlsplit_raises (path req) then Some (fs, Uncaught ValueError)
  else
    let method_dir := method_dir root_dir (path req) method in
    match _cache_request req with
    | Raise e => Some (fs, Uncaught e)
    | Return snap =>
        match get_handler fuel snap fs method_dir with
        | None => None
        | Some (fs', Raise e) => Some (fs', Uncaught e)
        | Some (fs', Return directory) =>
            match _static_handler fs' directory with
            | Raise e => Some (fs', Uncaught e)
            | Return (status_code, data, headers) =>
                if forallb sendable headers
                then Some (fs', Responded status_code headers data)
                else Some (fs', Uncaught UnicodeEncodeError)
            end
        end
    end.

End Dispatch.

(** The status line a client reads, when there is one. *)
Definition http_status (o : outcome) : option Z :=
  match o with
  | Responded status_code _ _ => Some status_code
  | Uncaught _ => None
  end.

End Chora.

(* ================================================================== *)
(** ** The specification's vocabulary *)
(* ================================================================== *)

Module Spec.
Import PyStr PyDict PurePath Chora PathNotations.

(** The path whose segment at position [k] (and no other) is the
    sentinel. *)
Fixpoint replace_segment (k : nat) (p : Path) {struct p} : Path :=
  match p with
  | [] => []
  | h :: t =>
      match k with
      | 0 => TEMPLATE :: t
      | S k' => h :: replace_segment k' t
      end
  end.

(** The text after the first [c], empty when there is none. *)
Fixpoint after (c : ascii) (s : str) : str :=
  match s with
  | [] => []
  | x :: r => if Ascii.eqb x c then r else after c r
  end.

(** The lines of the trimmed HEADERS text that hold a colon. *)
Definition colon_lines (text : str) : list str :=
  filter (in_ ":") (split "010" (strip text)).

(** A line split once on its first colon, both sides trimmed. *)
Definition entry_of (line : str) : str * str :=
  (strip (before ":" line), strip (after ":" line)).

Definition entries (text : str) : list (str * str) :=
  map entry_of (colon_lines text).

(** The entries applied to a mapping one after the other. *)
Definition apply_entries (d : dict) (es : list (str * str)) : dict :=
  fold_left (fun acc e => setitem acc (fst e) (snd e)) es d.

Definition headers_of_text (text : str) : dict :=
  apply_entries [] (entries text).

Definition mem (k : str) (ks : list str) : bool := existsb (str_eqb k) ks.

(** The names of [ks] not yet in [seen], each at its first occurrence. *)
Fixpoint first_occurrences (seen ks : list str) : list str :=
  match ks with
  | [] => []
  | k :: r =>
      if mem k seen then first_occurrences seen r
      else k :: first_occurrences (seen ++ [k]) r
  end.

(** One hop of the dynamic dispatch: [d] resolves to a directory that
    holds an executable HANDLE, the program exits with status zero, and its
    trimmed output, taken relative to the directory of the program when it
    is not absolute, is [d'].  The static artifacts of the directory play
    no part. *)
Section Hops.
Variable exec : FS -> Path -> Snapshot -> completed * (Path -> option node).
Variable snap : Snapshot.

Inductive hop : FS -> Path -> FS -> Path -> Prop :=
| hop_intro (fs : FS) (d r : Path) (stdout : str)
    (stat' : Path -> option node) :
    _get_directory fs d = Some r ->
    exists_ fs (r ++ [HANDLE]) = true ->
    access_x fs (absolute fs r ++ [HANDLE]) = true ->
    exec fs (absolute fs r ++ [HANDLE]) snap = (Exited 0 stdout, stat') ->
    hop fs d (mkFS (cwd_segments fs) stat')
        (let emitted := parse (strip stdout) in
         if is_absolute emitted then emitted
         else absolute fs r ++ emitted).

(** A chain of [n] hops. *)
Inductive hops : nat -> FS -> Path -> FS -> Path -> Prop :=
| hops_nil (fs : FS) (d : Path) : hops 0 fs d fs d
| hops_cons (n : nat) (fs fs1 fs2 : FS) (d d1 d2 : Path) :
    hop fs d fs1 d1 -> hops n fs1 d1 fs2 d2 -> hops (S n) fs d fs2 d2.

(** Where a chain can end: nothing resolves, or the resolved directory
    has no HANDLE (it is static), or its HANDLE may not be executed, or
    the program fails. *)
Inductive terminal : FS -> Path -> Prop :=
| terminal_not_found (fs : FS) (d : Path) :
    _get_directory fs d = None -> terminal fs d
| terminal_static (fs : FS) (d r : Path) :
    _get_directory fs d = Some r ->
    exists_ fs (r ++ [HANDLE]) = false -> terminal fs d
| terminal_forbidden (fs : FS) (d r : Path) :
    _get_directory fs d = Some r ->
    exists_ fs (r ++ [HANDLE]) = true ->
    access_x fs (absolute fs r ++ [HANDLE]) = false -> terminal fs d
| terminal_failed (fs : FS) (d r : Path) (proc : completed)
    (stat' : Path -> option node) :
    _get_directory fs d = Some r ->
    exists_ fs (r ++ [HANDLE]) = true ->
    access_x fs (absolute fs r ++ [HANDLE]) = true ->
    exec fs (absolute fs r ++ [HANDLE]) snap = (proc, stat') ->
    (forall stdout, proc <> Exited 0 stdout) -> terminal fs d.

(** Dispatch at the end of a chain: the file system it leaves and what
    [get_handler] gives there, the static directory or the exception. *)
Inductive ends : FS -> Path -> FS -> result Path -> Prop :=
| ends_not_found (fs : FS) (d : Path) :
    _get_directory fs d = None ->
    ends fs d fs (Raise FileNotFoundError)
| ends_static (fs : FS) (d r : Path) :
    _get_directory fs d = Some r ->
    exists_ fs (r ++ [HANDLE]) = false ->
    ends fs d fs (Return r)
| ends_forbidden (fs : FS) (d r : Path) :
    _get_directory fs d = Some r ->
    exists_ fs (r ++ [HANDLE]) = true ->
    access_x fs (absolute fs r ++ [HANDLE]) = false ->
    ends fs d fs (Raise PermissionError)
| ends_failed (fs : FS) (d r : Path) (returncode : Z) (stdout : str)
    (stat' : Path -> option node) :
    _get_directory fs d = Some r ->
    exists_ fs (r ++ [HANDLE]) = true ->
    access_x fs (absolute fs r ++ [HANDLE]) = true ->
    exec fs (absolute fs r ++ [HANDLE]) snap
    = (Exited returncode stdout, stat') ->
    returncode <> 0%Z ->
    ends fs d (mkFS (cwd_segments fs) stat')
         (Raise (CalledProcessError returncode))
| ends_undecodable (fs : FS) (d r : Path) (stat' : Path -> option node) :
    _get_directory fs d = Some r ->
    exists_ fs (r ++ [HANDLE]) = true ->
    access_x fs (absolute fs r ++ [HANDLE]) = true ->
    exec fs (absolute fs r ++ [HANDLE]) snap = (Undecodable, stat') ->
    ends fs d (mkFS (cwd_segments fs) stat') (Raise UnicodeDecodeError)
| ends_not_started (fs : FS) (d r : Path) (e : exn)
    (stat' : Path -> option node) :
    _get_directory fs d = Some r ->
    exists_ fs (r ++ [HANDLE]) = true ->
    access_x fs (absolute fs r ++ [HANDLE]) = true ->
    exec fs (absolute fs r ++ [HANDLE]) snap = (Spawn_failed e, stat') ->
    ends fs d (mkFS (cwd_segments fs) stat') (Raise e).

End Hops.

End Spec.

(* ================================================================== *)
(** ** A site to run the handler on *)
(* ================================================================== *)

Module Site.
Import PyStr PyDict PurePath Chora PathNotations.
Local Open Scope string_scope.
Local Open Scope list_scope.

Definition nl : str := ["010"%char].

(** The lines of a text file, each ended by a newline. *)
Definition text (lines : list string) : str :=
  List.concat (map (fun l => lit l ++ nl) lines).

Definition P (s : string) : Path := Path_ [lit s].

Definition dir (s : string) : list (Path * node) := [(P s, Dir)].

Definition file (s : string) (content : str) (x_ok : bool)
  : list (Path * node) := [(P s, File content x_ok)].

Definition script : str := text ["#!/bin/sh"].

Definition tree : list (Path * node) :=
  dir "/" ++ dir "/srv" ++ dir "/srv/www" ++
  (* a static route *)
  dir "/srv/www/hello" ++ dir "/srv/www/hello/GET" ++
  file "/srv/www/hello/GET/STATUS" (text [" 200"]) false ++
  file "/srv/www/hello/GET/DATA" (text ["hi"]) false ++
  file "/srv/www/hello/GET/HEADERS"
    (text ["Content-Type: text/plain"; "not a header"; "X-Empty:";
           "  X-Time : 12:30 "; ""]) false ++
  (* a repeated header name *)
  dir "/srv/www/cookies" ++ dir "/srv/www/cookies/GET" ++
  file "/srv/www/cookies/GET/STATUS" (lit "200") false ++
  file "/srv/www/cookies/GET/DATA" (lit "") false ++
  file "/srv/www/cookies/GET/HEADERS"
    (text ["Set-Cookie: a=1"; "Set-Cookie: b=2"]) false ++
  (* templates at two positions *)
  dir "/srv/www/users" ++ dir "/srv/www/users/__TEMPLATE__" ++
  dir "/srv/www/users/__TEMPLATE__/GET" ++
  file "/srv/www/users/__TEMPLATE__/GET/STATUS" (lit "200") false ++
  file "/srv/www/users/__TEMPLATE__/GET/DATA" (lit "user") false ++
  file "/srv/www/users/__TEMPLATE__/GET/HEADERS" (lit "") false ++
  dir "/srv/www/__TEMPLATE__" ++ dir "/srv/www/__TEMPLATE__/7" ++
  dir "/srv/www/__TEMPLATE__/7/GET" ++
  (* a static directory without STATUS *)
  dir "/srv/www/incomplete" ++ dir "/srv/www/incomplete/GET" ++
  file "/srv/www/incomplete/GET/DATA" (lit "test") false ++
  file "/srv/www/incomplete/GET/HEADERS"
    (lit "Content-Type: text/plain") false ++
  (* a STATUS that is no number *)
  dir "/srv/www/malformed_status" ++ dir "/srv/www/malformed_status/GET" ++
  file "/srv/www/malformed_status/GET/STATUS" (lit "not_a_number") false ++
  file "/srv/www/malformed_status/GET/DATA" (lit "test data") false ++
  file "/srv/www/malformed_status/GET/HEADERS"
    (lit "Content-Type: text/plain") false ++
  (* a HANDLE without the executable bit *)
  dir "/srv/www/non_executable" ++ dir "/srv/www/non_executable/GET" ++
  file "/srv/www/non_executable/GET/HANDLE" script false ++
  (* a HANDLE that exits with 1 *)
  dir "/srv/www/failing_script" ++ dir "/srv/www/failing_script/GET" ++
  file "/srv/www/failing_script/GET/HANDLE" script true ++
  (* a HANDLE that names a directory that is not there *)
  dir "/srv/www/invalid_output" ++ dir "/srv/www/invalid_output/GET" ++
  file "/srv/www/invalid_output/GET/HANDLE" script true ++
  (* a HANDLE beside static artifacts, chained to a second HANDLE *)
  dir "/srv/www/dynamic" ++ dir "/srv/www/dynamic/GET" ++
  file "/srv/www/dynamic/GET/HANDLE" script true ++
  file "/srv/www/dynamic/GET/STATUS" (lit "418") false ++
  file "/srv/www/dynamic/GET/DATA" (lit "static") false ++
  file "/srv/www/dynamic/GET/HEADERS" (lit "") false ++
  dir "/srv/www/dynamic/GET/next" ++
  file "/srv/www/dynamic/GET/next/HANDLE" script true ++
  (* a HANDLE that prints nothing *)
  dir "/srv/www/silent" ++ dir "/srv/www/silent/GET" ++
  file "/srv/www/silent/GET/HANDLE" script true ++
  (* a HANDLE that looks at the request line *)
  dir "/srv/www/search" ++ dir "/srv/www/search/GET" ++
  file "/srv/www/search/GET/HANDLE" script true ++
  dir "/srv/www/search/GET/all" ++
  file "/srv/www/search/GET/all/STATUS" (lit "200") false ++
  file "/srv/www/search/GET/all/DATA" (lit "everything") false ++
  file "/srv/www/search/GET/all/HEADERS" (lit "") false ++
  dir "/srv/www/search/GET/some" ++
  file "/srv/www/search/GET/some/STATUS" (lit "200") false ++
  file "/srv/www/search/GET/some/DATA" (lit "matches") false ++
  file "/srv/www/search/GET/some/HEADERS" (lit "") false.

Fixpoint assoc (t : list (Path * node)) (p : Path) : option node :=
  match t with
  | [] => None
  | (q, n) :: r => if path_eq_dec q p then Some n else assoc r p
  end.

(** The server runs in [/srv] with the relative root [www]. *)
Definition site : FS := mkFS [lit "srv"] (assoc tree).

Definition root_dir : Path := P "www".

Definition names (p : Path) (s : string) : bool :=
  if path_eq_dec p (P s) then true else false.

(** What each HANDLE of the site does. *)
Definition program (handler : Path) (snap : Snapshot) : completed :=
  if names handler "/srv/www/failing_script/GET/HANDLE" then
    Exited 1 []
  else if names handler "/srv/www/invalid_output/GET/HANDLE" then
    Exited 0 (text ["/this/path/does/not/exist"])
  else if names handler "/srv/www/dynamic/GET/HANDLE" then
    Exited 0 (text ["next"])
  else if names handler "/srv/www/dynamic/GET/next/HANDLE" then
    Exited 0 (text ["/srv/www/hello/GET"])
  else if names handler "/srv/www/silent/GET/HANDLE" then
    Exited 0 []
  else if names handler "/srv/www/search/GET/HANDLE" then
    if in_ "?"%char (REQUEST snap) then Exited 0 (text ["some"])
    else Exited 0 (text ["all"])
  else Spawn_failed OSError.

(** The programs of the site leave the files alone. *)
Definition exec (fs : FS) (handler : Path) (snap : Snapshot)
  : completed * (Path -> option node) :=
  (program handler snap, stat fs).

Definition GET : str := lit "GET".

(** A GET request for a target, without headers or body. *)
Definition request (target : string) : Request :=
  mkRequest (lit "GET " ++ lit target ++ lit " HTTP/1.1") (lit target) [] [].

Definition run (fuel : nat) (target : string) : option outcome :=
  option_map snd (_handle_request exec fuel root_dir site (request target) GET).

(** The scratch directory of such a request. *)
Definition snapshot (target : string) : Snapshot :=
  mkSnapshot (requestline (request target)) [] [].

(** The route target of a GET request. *)
Definition route (target : string) : Path :=
  method_dir root_dir (lit target) GET.

(** The same programs, run without sight of the request line. *)
Definition exec_blind (fs : FS) (handler : Path) (snap : Snapshot)
  : completed * (Path -> option node) :=
  exec fs handler (mkSnapshot [] (HEADERS snap) (DATA snap)).

Definition cookie_line_1 : str * str := (lit "Set-Cookie", lit "a=1").
Definition cookie_line_2 : str * str := (lit "Set-Cookie", lit "b=2").

End Site.

(* ================================================================== *)
(** ** The rest of the handler *)
(* ================================================================== *)

Module Attributes.
Import PyStr PurePath Chora.

(** [s.startswith(prefix)] *)
Definition startswith (prefix s : str) : bool :=
  str_eqb (firstn (List.length prefix) s) prefix.

(** [__getattr__]: the method name [_handle_request] is bound to by
    [partial], [None] for [AttributeError]. *)
Definition __getattr__ (item : str) : option str :=
  if startswith (lit "do_") item then Some (skipn 3 item) else None.

(** [__init__]: [self.root_dir = Path(root_dir)] *)
Definition __init__ (root_dir : str) : Path := Path_ [root_dir].

End Attributes.

(* ================================================================== *)
(** ** The text of a HEADERS artifact *)
(* ================================================================== *)

Module HeaderText.
Import PyStr PyDict.

(** [sep.join(lines)] *)
Fixpoint join (sep : ascii) (lines : list str) : str :=
  match lines with
  | [] => []
  | [l] => l
  | l :: rest => l ++ sep :: join sep rest
  end.

(** [f"{key}: {value}"] *)
Definition line_of (kv : str * str) : str := fst kv ++ lit ": " ++ snd kv.

(** The text that holds a mapping, one [name: value] line per entry, the
    lines joined by newlines (the layout the tests of the repository write
    with ["\n".join(header_lines)]). *)
Definition render (d : dict) : str := join "010" (map line_of d).

(** A name and a value that come back as they are: trimmed, on one line
    (neither LF nor CR), the name without colon. *)
Definition one_line (s : str) : bool := negb (in_ "010" s) && negb (in_ "013" s).

Definition entry_ok (kv : str * str) : bool :=
  str_eqb (strip (fst kv)) (fst kv) && str_eqb (strip (snd kv)) (snd kv) &&
  negb (in_ ":" (fst kv)) && one_line (fst kv) && one_line (snd kv).

Fixpoint distinct (ks : list str) : bool :=
  match ks with
  | [] => true
  | k :: rest => negb (existsb (str_eqb k) rest) && distinct rest
  end.

End HeaderText.

(* ================================================================== *)
(** ** A second site: a template in the working directory *)
(* ================================================================== *)

Module Workdir.
Import PyStr PurePath Chora Site.
Local Open Scope string_scope.
Local Open Scope list_scope.

Definition tree : list (Path * node) :=
  dir "/" ++ dir "/work" ++ dir "/work/__TEMPLATE__" ++
  dir "/work/__TEMPLATE__/data" ++ dir "/work/__TEMPLATE__/data/GET".

(** The server runs in [/work]; [/data] is not there. *)
Definition site : FS := mkFS [lit "work"] (assoc tree).

End Workdir.

(* ================================================================== *)
(** ** A third site: a route written from a mapping, and two requests *)
(* ================================================================== *)

Module Written.
Import PyStr PyDict PurePath Chora HeaderText Site.
Local Open Scope string_scope.
Local Open Scope list_scope.

Definition mapping : dict :=
  [(lit "Content-Type", lit "application/json");
   (lit "X-Note", lit "a: b");
   (lit "X-Empty", [])].

Definition tree : list (Path * node) :=
  dir "/" ++ dir "/srv" ++ dir "/srv/www" ++
  dir "/srv/www/api" ++ dir "/srv/www/api/POST" ++
  file "/srv/www/api/POST/STATUS" (lit "201") false ++
  file "/srv/www/api/POST/DATA" (lit "{}") false ++
  file "/srv/www/api/POST/HEADERS" (render mapping) false.

Definition site : FS := mkFS [lit "srv"] (assoc tree).

(** A POST with a body of five bytes that declares three. *)
Definition post : Request :=
  mkRequest (lit "POST /api HTTP/1.1") (lit "/api")
            [(lit "Host", lit "localhost"); (lit "content-length", lit "3")]
            (lit "hello").

(** A POST whose Content-Length is no number. *)
Definition post_malformed : Request :=
  mkRequest (lit "POST /api HTTP/1.1") (lit "/api")
            [(lit "Content-Length", lit "three")] (lit "hello").

Definition POST : str := lit "POST".

End Written.

(* ================================================================== *)
(** ** A fourth site: artifacts in several encodings *)
(* ================================================================== *)

Module Encodings.
Import PyStr PyDict PurePath Chora Site.
Local Open Scope string_scope.
Local Open Scope list_scope.

(** [caf] and an e with acute accent as Latin-1 has it: one byte, 0xE9,
    which is no UTF-8. *)
Definition cafe_latin1 : str := lit "X-Name: caf" ++ ["233"%char].

(** The same in UTF-8: 0xC3 0xA9. *)
Definition cafe_utf8 : str := lit "caf" ++ ["195"%char; "169"%char].

(** A snowman, U+2603, in UTF-8. *)
Definition snowman : str := ["226"%char; "152"%char; "131"%char].

(** A no-break space, U+00A0, in UTF-8. *)
Definition nbsp : str := ["194"%char; "160"%char].

Definition cr : str := ["013"%char].

Definition tree : list (Path * node) :=
  dir "/" ++ dir "/srv" ++ dir "/srv/www" ++
  (* HEADERS written in Latin-1 *)
  dir "/srv/www/latin" ++ dir "/srv/www/latin/GET" ++
  file "/srv/www/latin/GET/STATUS" (lit "200") false ++
  file "/srv/www/latin/GET/DATA" (lit "") false ++
  file "/srv/www/latin/GET/HEADERS" cafe_latin1 false ++
  (* a header value that Latin-1 does not hold *)
  dir "/srv/www/wide" ++ dir "/srv/www/wide/GET" ++
  file "/srv/www/wide/GET/STATUS" (lit "200") false ++
  file "/srv/www/wide/GET/DATA" (lit "") false ++
  file "/srv/www/wide/GET/HEADERS" (lit "X-Sign: " ++ snowman) false ++
  (* lines ended by CR and by CR LF, no-break spaces about the status and a
     value *)
  dir "/srv/www/mac" ++ dir "/srv/www/mac/GET" ++
  file "/srv/www/mac/GET/STATUS" (nbsp ++ lit "204" ++ nbsp ++ cr) false ++
  file "/srv/www/mac/GET/DATA" (lit "a" ++ cr ++ lit "b") false ++
  file "/srv/www/mac/GET/HEADERS"
    (lit "A: 1" ++ cr ++ lit "X-Name:" ++ nbsp ++ cafe_utf8 ++ cr ++ nl
     ++ lit "B: 2" ++ cr)
    false.

Definition site : FS := mkFS [lit "srv"] (assoc tree).


End Encodings.

(* ================================================================== *)
(** ** Facts about [str] and [pathlib] *)
(* ================================================================== *)

Module PyStrFacts.
Import PyStr.

Lemma str_eqb_eq (a b : str) : str_eqb a b = true <-> a = b.
Proof.
  unfold str_eqb. destruct (str_eq_dec a b); split; congruence.
Qed.

Lemma str_eqb_refl (a : str) : str_eqb a a = true.
Proof. now apply str_eqb_eq. Qed.

Lemma str_eqb_neq (a b : str) : str_eqb a b = false <-> a <> b.
Proof.
  unfold str_eqb. destruct (str_eq_dec a b); split; congruence.
Qed.

Lemma in_cons (c x : ascii) (s : str) :
  in_ c (x :: s) = Ascii.eqb x c || in_ c s.
Proof. unfold in_. simpl. now rewrite Ascii.eqb_sym. Qed.

Lemma in_app (c : ascii) (s t : str) : in_ c (s ++ t) = in_ c s || in_ c t.
Proof. unfold in_. apply existsb_app. Qed.

Lemma cut_absent (sep : ascii) (s : str) :
  in_ sep s = false -> cut sep s = None.
Proof.
  induction s as [|x s IH]; [reflexivity|].
  rewrite in_cons. intros H. apply orb_false_iff in H as [Hx Hs].
  cbn [cut]. rewrite Hx, (IH Hs). reflexivity.
Qed.

Lemma cut_present (sep : ascii) (s : str) :
  in_ sep s = true ->
  exists a b, cut sep s = Some (a, b) /\ s = a ++ sep :: b /\ in_ sep a = false.
Proof.
  induction s as [|x s IH]; [discriminate|].
  rewrite in_cons. cbn [cut]. destruct (Ascii.eqb x sep) eqn:Hx; simpl.
  - intros _. apply Ascii.eqb_eq in Hx. subst x.
    exists [], s. repeat split.
  - intros Hs. destruct (IH Hs) as (a & b & Hc & Hab & Ha).
    exists (x :: a), b. rewrite Hc. repeat split.
    + simpl. now rewrite Hab.
    + rewrite in_cons, Hx, Ha. reflexivity.
Qed.

Lemma split_absent (sep : ascii) (s : str) :
  in_ sep s = false -> split sep s = [s].
Proof.
  intros H. unfold split. destruct (List.length s); simpl; [reflexivity|].
  now rewrite (cut_absent _ _ H).
Qed.

Lemma cut_parts (sep : ascii) (s a b : str) :
  cut sep s = Some (a, b) ->
  in_ sep a = false /\ List.length b < List.length s.
Proof.
  revert a b. induction s as [|x s IH]; intros a b; cbn [cut]; [discriminate|].
  destruct (Ascii.eqb x sep) eqn:Hx.
  - intros [= <- <-]. split; [reflexivity|]. simpl. lia.
  - destruct (cut sep s) as [[a' b']|]; [|discriminate].
    intros [= <- <-]. destruct (IH a' b' eq_refl) as [Ha Hb].
    split; [now rewrite in_cons, Hx, Ha|]. simpl. lia.
Qed.

Lemma cut_none (sep : ascii) (s : str) :
  cut sep s = None -> in_ sep s = false.
Proof.
  intros H. destruct (in_ sep s) eqn:E; [|reflexivity].
  destruct (cut_present _ _ E) as (a & b & Hc & _). congruence.
Qed.

(** No piece of a split holds the separator. *)
Lemma split_max_sep_free (sep : ascii) (n : nat) (s : str) :
  List.length s <= n ->
  forallb (fun x => negb (in_ sep x)) (split_max sep n s) = true.
Proof.
  revert s. induction n as [|n IH]; intros s Hn; cbn [split_max].
  - destruct s; [reflexivity|simpl in Hn; lia].
  - destruct (cut sep s) as [[a b]|] eqn:E.
    + destruct (cut_parts _ _ _ _ E) as [Ha Hb]. cbn [forallb].
      rewrite Ha. cbn [negb andb]. apply IH. lia.
    + cbn [forallb]. now rewrite (cut_none _ _ E).
Qed.

Lemma split_sep_free (sep : ascii) (s : str) :
  forallb (fun x => negb (in_ sep x)) (split sep s) = true.
Proof. apply split_max_sep_free, le_n. Qed.

End PyStrFacts.

Module PurePathFacts.
Import PyStr PurePath PyStrFacts.

Lemma seg_ok_not_root (s : str) : seg_ok s = true -> is_root s = false.
Proof.
  unfold seg_ok. intros H. apply andb_true_iff in H as [_ H].
  apply negb_true_iff in H. destruct s as [|c s]; [reflexivity|].
  rewrite in_cons in H. apply orb_false_iff in H as [H _]. exact H.
Qed.

(** A well-formed segment parses to itself. *)
Lemma parse_segment (s : str) : seg_ok s = true -> parse s = [s].
Proof.
  intros H. pose proof (seg_ok_not_root s H) as Hr.
  unfold seg_ok in H. apply andb_true_iff in H as [Hk Hs].
  apply negb_true_iff in Hs.
  unfold parse, splitroot. rewrite Hr. simpl.
  rewrite (split_absent _ _ Hs). simpl. now rewrite Hk.
Qed.

Lemma parse_root (s : str) : root_ok s = true -> parse s = [s].
Proof.
  unfold root_ok. intros H. apply orb_true_iff in H as [H|H];
    apply str_eqb_eq in H; subst s; reflexivity.
Qed.

Lemma root_ok_is_root (s : str) : root_ok s = true -> is_root s = true.
Proof.
  unfold root_ok. intros H. apply orb_true_iff in H as [H|H];
    apply str_eqb_eq in H; subst s; reflexivity.
Qed.

Lemma join_segments (acc t : Path) :
  forallb seg_ok t = true ->
  fold_left (fun a s => joinpath a (parse s)) t acc = acc ++ t.
Proof.
  revert acc. induction t as [|s t IH]; intros acc H; simpl.
  - now rewrite app_nil_r.
  - simpl in H. apply andb_true_iff in H as [Hs Ht].
    rewrite (parse_segment s Hs). unfold joinpath at 2. simpl.
    rewrite (seg_ok_not_root s Hs), (IH _ Ht), <- app_assoc. reflexivity.
Qed.

(** Building a path from well-formed parts gives these parts back. *)
Lemma Path_parts (p : Path) : wf p = true -> Path_ p = p.
Proof.
  destruct p as [|h t]; [reflexivity|]. simpl. intros H.
  apply andb_true_iff in H as [Hh Ht]. unfold Path_. simpl.
  rewrite (join_segments _ _ Ht).
  apply orb_true_iff in Hh as [Hh|Hh].
  - rewrite (parse_root h Hh). unfold joinpath. simpl.
    now rewrite (root_ok_is_root h Hh).
  - rewrite (parse_segment h Hh). unfold joinpath. simpl.
    now rewrite (seg_ok_not_root h Hh).
Qed.

(** [p / s] appends a well-formed segment. *)
Lemma truediv_segment (p : Path) (s : str) :
  seg_ok s = true -> truediv p s = p ++ [s].
Proof.
  intros H. unfold truediv, joinpath. rewrite (parse_segment s H). simpl.
  now rewrite (seg_ok_not_root s H).
Qed.

Lemma parent_snoc (p : Path) (s : str) :
  seg_ok s = true -> parent (p ++ [s]) = p.
Proof.
  intros H. destruct p as [|a p]; simpl.
  - now rewrite (seg_ok_not_root s H).
  - destruct (p ++ [s]) eqn:E.
    + destruct p; discriminate.
    + rewrite <- E. f_equal. apply removelast_last.
Qed.

Lemma kept_segments_ok (l : list str) :
  forallb (fun x => negb (in_ "/" x)) l = true ->
  forallb seg_ok (filter keeps l) = true.
Proof.
  induction l as [|x l IH]; [reflexivity|]. cbn [forallb filter].
  intros H. apply andb_true_iff in H as [Hx Hl].
  destruct (keeps x) eqn:Hk; [|now apply IH].
  cbn [forallb]. unfold seg_ok at 1. now rewrite Hk, Hx, (IH Hl).
Qed.

Lemma wf_segments (l : list str) : forallb seg_ok l = true -> wf l = true.
Proof.
  destruct l as [|h t]; [reflexivity|]. cbn [forallb wf]. intros H.
  apply andb_true_iff in H as [Hh Ht]. now rewrite Hh, Ht, orb_true_r.
Qed.

Lemma relative_segments (q : Path) :
  wf q = true -> is_absolute q = false -> forallb seg_ok q = true.
Proof.
  destruct q as [|h t]; [reflexivity|]. cbn [wf is_absolute forallb].
  intros H Hr. apply andb_true_iff in H as [Hh Ht].
  apply orb_true_iff in Hh as [Hh|Hh].
  - rewrite (root_ok_is_root h Hh) in Hr. discriminate.
  - now rewrite Hh, Ht.
Qed.

(** Every path string parses to well-formed parts. *)
Lemma parse_wf (s : str) : wf (parse s) = true.
Proof.
  unfold parse, splitroot.
  destruct (negb (is_root s)).
  - apply wf_segments, kept_segments_ok, split_sep_free.
  - destruct (negb (is_root (skipn 1 s)) || is_root (skipn 2 s));
      cbn [wf]; rewrite kept_segments_ok by apply split_sep_free; reflexivity.
Qed.

Lemma wf_app (p q : Path) :
  wf p = true -> forallb seg_ok q = true -> wf (p ++ q) = true.
Proof.
  destruct p as [|h t]; [intros _; apply wf_segments|].
  cbn [wf app]. intros H Hq. apply andb_true_iff in H as [Hh Ht].
  now rewrite Hh, forallb_app, Ht, Hq.
Qed.

(** Joining keeps the parts well formed. *)
Lemma joinpath_wf (p q : Path) :
  wf p = true -> wf q = true -> wf (joinpath p q) = true.
Proof.
  intros Hp Hq. unfold joinpath. destruct (is_absolute q) eqn:E; [exact Hq|].
  apply wf_app; [exact Hp|]. now apply relative_segments.
Qed.

Lemma truediv_wf (p : Path) (s : str) : wf p = true -> wf (truediv p s) = true.
Proof. intros Hp. apply joinpath_wf; [exact Hp|apply parse_wf]. Qed.

End PurePathFacts.

(* ================================================================== *)
(** ** The path resolver *)
(* ================================================================== *)

Module ResolverFacts.
Import PyStr PurePath Chora Spec PyStrFacts PurePathFacts.

Lemma is_dir_exists (fs : FS) (p : Path) :
  is_dir fs p = true -> exists_ fs p = true.
Proof.
  unfold is_dir, exists_. destruct (lookup fs p) as [[|]|]; congruence.
Qed.

Lemma exists_and_is_dir (fs : FS) (p : Path) :
  exists_ fs p && is_dir fs p = is_dir fs p.
Proof.
  destruct (is_dir fs p) eqn:E.
  - now rewrite (is_dir_exists _ _ E).
  - apply andb_false_r.
Qed.

Lemma replace_segment_slices (k : nat) (p : Path) :
  k < List.length p ->
  firstn k p ++ TEMPLATE :: skipn (S k) p = replace_segment k p.
Proof.
  revert k. induction p as [|h t IH]; intros k Hk; simpl in Hk; [lia|].
  destruct k as [|k]; [reflexivity|].
  cbn [firstn skipn replace_segment app]. f_equal. apply IH. lia.
Qed.

Lemma replace_segment_length (k : nat) (p : Path) :
  List.length (replace_segment k p) = List.length p.
Proof.
  revert k. induction p as [|h t IH]; intros [|k]; simpl; auto.
Qed.

(** Exactly one position changes. *)
Lemma replace_segment_nth (k j : nat) (p : Path) :
  k < List.length p ->
  nth_error (replace_segment k p) j =
  if Nat.eqb j k then Some TEMPLATE else nth_error p j.
Proof.
  revert k j. induction p as [|h t IH]; intros k j Hk; simpl in Hk; [lia|].
  destruct k as [|k], j as [|j]; simpl; try reflexivity.
  apply IH. lia.
Qed.

Lemma template_ok : seg_ok TEMPLATE = true.
Proof. reflexivity. Qed.

Lemma segments_replace (k : nat) (t : Path) :
  forallb seg_ok t = true -> forallb seg_ok (replace_segment k t) = true.
Proof.
  revert k. induction t as [|h t IH]; intros k H; [reflexivity|].
  simpl in H. apply andb_true_iff in H as [Hh Ht].
  destruct k as [|k]; simpl.
  - now rewrite Ht.
  - now rewrite Hh, (IH k Ht).
Qed.

Lemma wf_replace_segment (k : nat) (p : Path) :
  wf p = true -> wf (replace_segment k p) = true.
Proof.
  destruct p as [|h t]; [reflexivity|]. simpl. intros H.
  apply andb_true_iff in H as [Hh Ht].
  destruct k as [|k]; cbn [replace_segment wf].
  - rewrite Ht. reflexivity.
  - now rewrite Hh, (segments_replace k t Ht).
Qed.

(** The candidate of turn [i = S k] is the path with segment [k]
    replaced. *)
Lemma candidate_replaces (k : nat) (p : Path) :
  wf p = true -> k < List.length p ->
  Path_ (firstn k p ++ TEMPLATE :: skipn (S k) p) = replace_segment k p.
Proof.
  intros Hwf Hk. rewrite (replace_segment_slices k p Hk).
  apply Path_parts. now apply wf_replace_segment.
Qed.

Lemma loop_scans_down (fs : FS) (p : Path) (i : nat) :
  wf p = true -> i <= List.length p ->
  match _get_directory_loop fs p i with
  | Some c =>
      exists k, k < i /\ c = replace_segment k p /\ is_dir fs c = true /\
                forall j, k < j < i -> is_dir fs (replace_segment j p) = false
  | None => forall k, k < i -> is_dir fs (replace_segment k p) = false
  end.
Proof.
  intros Hwf. induction i as [|i IH]; intros Hi; cbn [_get_directory_loop].
  - intros k Hk. lia.
  - rewrite (candidate_replaces i p Hwf) by lia.
    rewrite exists_and_is_dir.
    destruct (is_dir fs (replace_segment i p)) eqn:E.
    + exists i. repeat split; auto. intros j Hj. lia.
    + specialize (IH ltac:(lia)).
      destruct (_get_directory_loop fs p i) as [c|].
      * destruct IH as (k & Hk & Hc & Hd & Hnone).
        exists k. repeat split; auto.
        intros j Hj. destruct (Nat.eq_dec j i) as [->|Hne]; [exact E|].
        apply Hnone. lia.
      * intros k Hk. destruct (Nat.eq_dec k i) as [->|Hne]; [exact E|].
        apply IH. lia.
Qed.

(** What resolution returns is well formed again. *)
Lemma get_directory_wf (fs : FS) (d r : Path) :
  wf d = true -> _get_directory fs d = Some r -> wf r = true.
Proof.
  intros Hwf. unfold _get_directory.
  destruct (is_dir fs d); [now intros [= <-]|].
  pose proof (loop_scans_down fs d (List.length d) Hwf (le_n _)) as H.
  destruct (_get_directory_loop fs d (List.length d)) as [c|]; [|discriminate].
  intros [= <-]. destruct H as (k & _ & -> & _).
  now apply wf_replace_segment.
Qed.

(** C1. Resolution returns the literal target when it is a directory,
    without looking at any template.  Otherwise the candidates are the
    target with exactly one segment replaced by [__TEMPLATE__], tried from
    the last position down to the first; the first candidate that is a
    directory is returned, and the answer is [None] (NotFound) only when
    no position gives a directory. *)
Theorem get_directory_resolves (fs : FS) (d : Path) :
  wf d = true ->
  match _get_directory fs d with
  | Some c =>
      (is_dir fs d = true /\ c = d) \/
      (is_dir fs d = false /\
       exists k, k < List.length d /\ c = replace_segment k d /\
                 is_dir fs c = true /\
                 forall j, k < j < List.length d ->
                           is_dir fs (replace_segment j d) = false)
  | None =>
      is_dir fs d = false /\
      forall k, k < List.length d -> is_dir fs (replace_segment k d) = false
  end.
Proof.
  intros Hwf. unfold _get_directory.
  destruct (is_dir fs d) eqn:E; [left; auto|].
  pose proof (loop_scans_down fs d (List.length d) Hwf (le_n _)) as H.
  destruct (_get_directory_loop fs d (List.length d)) as [c|].
  - right. split; [reflexivity|]. exact H.
  - split; [reflexivity|]. exact H.
Qed.

End ResolverFacts.

(* ================================================================== *)
(** ** The static handler *)
(* ================================================================== *)

Module DictFacts.
Import PyStr PyDict Spec PyStrFacts.

Lemma get_setitem (d : dict) (k v k' : str) :
  get (setitem d k v) k' = if str_eqb k k' then Some v else get d k'.
Proof.
  induction d as [|[a b] d IH]; simpl.
  - reflexivity.
  - destruct (str_eqb a k) eqn:Hak; simpl.
    + apply str_eqb_eq in Hak. subst a. now destruct (str_eqb k k').
    + rewrite IH. destruct (str_eqb a k') eqn:Hak'; [|reflexivity].
      apply str_eqb_eq in Hak'. subst a.
      destruct (str_eqb k k') eqn:Hkk; [|reflexivity].
      apply str_eqb_eq in Hkk. subst k'. rewrite str_eqb_refl in Hak.
      discriminate.
Qed.

Lemma mem_in (k : str) (ks : list str) : mem k ks = true <-> In k ks.
Proof.
  unfold mem. rewrite existsb_exists. split.
  - intros (x & Hx & E). apply str_eqb_eq in E. now subst.
  - intros H. exists k. split; [exact H|apply str_eqb_refl].
Qed.

Lemma keys_setitem (d : dict) (k v : str) :
  keys (setitem d k v) = if mem k (keys d) then keys d else keys d ++ [k].
Proof.
  unfold keys, mem. induction d as [|[a b] d IH]; simpl.
  - reflexivity.
  - destruct (str_eqb a k) eqn:Hak; simpl.
    + apply str_eqb_eq in Hak. subst a. now rewrite str_eqb_refl.
    + assert (str_eqb k a = false) as ->.
      { apply str_eqb_neq. apply str_eqb_neq in Hak. congruence. }
      simpl. rewrite IH. now destruct (existsb (str_eqb k) (map fst d)).
Qed.

Lemma NoDup_setitem (d : dict) (k v : str) :
  NoDup (keys d) -> NoDup (keys (setitem d k v)).
Proof.
  intros H. rewrite keys_setitem. destruct (mem k (keys d)) eqn:E; [exact H|].
  apply NoDup_app; [exact H | repeat constructor; intros [] | ].
  intros x Hx [<-|[]]. apply mem_in in Hx. congruence.
Qed.

(** After a run of assignments a name holds the value of the last one
    that names it. *)
Lemma get_apply_entries (es : list (str * str)) (d : dict) (k : str) :
  get (apply_entries d es) k =
  match get (rev es) k with
  | Some v => Some v
  | None => get d k
  end.
Proof.
  unfold apply_entries. revert d. induction es as [|[a b] es IH]; intros d.
  - reflexivity.
  - cbn [fold_left fst snd rev]. rewrite IH, get_setitem.
    assert (forall l, get (l ++ [(a, b)]) k =
                      match get l k with
                      | Some v => Some v
                      | None => if str_eqb a k then Some b else None
                      end) as Happ.
    { induction l as [|[x y] l IHl]; simpl; [reflexivity|].
      now destruct (str_eqb x k). }
    rewrite Happ. destruct (get (rev es) k); [reflexivity|].
    now destruct (str_eqb a k).
Qed.

Lemma keys_apply_entries (es : list (str * str)) (d : dict) :
  keys (apply_entries d es) =
  keys d ++ first_occurrences (keys d) (map fst es).
Proof.
  unfold apply_entries. revert d. induction es as [|[a b] es IH]; intros d.
  - simpl. now rewrite app_nil_r.
  - cbn [fold_left fst snd map first_occurrences]. rewrite IH, keys_setitem.
    destruct (mem a (keys d)); [reflexivity|].
    now rewrite <- app_assoc.
Qed.

Lemma NoDup_apply_entries (es : list (str * str)) (d : dict) :
  NoDup (keys d) -> NoDup (keys (apply_entries d es)).
Proof.
  unfold apply_entries. revert d. induction es as [|[a b] es IH]; intros d H.
  - exact H.
  - cbn [fold_left]. apply IH. now apply NoDup_setitem.
Qed.

End DictFacts.

Module StaticFacts.
Import PyStr PyDict PurePath UrlParse Chora Spec PathNotations.
Import PyStrFacts PurePathFacts DictFacts.

Lemma cut_before_after (sep : ascii) (s a b : str) :
  cut sep s = Some (a, b) -> a = before sep s /\ b = after sep s.
Proof.
  revert a b. induction s as [|x s IH]; intros a b; simpl; [discriminate|].
  destruct (Ascii.eqb x sep).
  - intros [= <- <-]. auto.
  - destruct (cut sep s) as [[a' b']|]; [|discriminate].
    intros [= <- <-]. destruct (IH a' b' eq_refl) as [-> ->]. auto.
Qed.

(** A line with a colon always unpacks into a key and a value. *)
Lemma header_line_colon (d : dict) (line : str) :
  in_ ":" line = true ->
  header_line d line =
  Return (setitem d (fst (entry_of line)) (snd (entry_of line))).
Proof.
  intros H. unfold header_line. rewrite H.
  destruct (cut_present _ _ H) as (a & b & Hc & _ & _).
  cbn [split_max]. rewrite Hc.
  destruct (cut_before_after _ _ _ _ Hc) as [-> ->]. reflexivity.
Qed.

Lemma header_line_plain (d : dict) (line : str) :
  in_ ":" line = false -> header_line d line = Return d.
Proof. intros H. unfold header_line. now rewrite H. Qed.

(** The loop over the lines never raises, and comes to the colon-bearing
    lines applied in order. *)
Lemma header_lines_apply (lines : list str) (d : dict) :
  header_lines d lines =
  Return (apply_entries d (map entry_of (filter (in_ ":") lines))).
Proof.
  revert d. induction lines as [|line lines IH]; intros d; [reflexivity|].
  cbn [header_lines filter]. destruct (in_ ":" line) eqn:E.
  - rewrite (header_line_colon d line E). cbn [bind map]. now rewrite IH.
  - rewrite (header_line_plain d line E). cbn [bind]. now rewrite IH.
Qed.



(** Without one of the three artifacts [_static_handler] raises. *)
Lemma static_handler_missing (fs : FS) (d : Path) :
  lookup fs (d // STATUS_) = None \/
  lookup fs (d // DATA_) = None \/
  lookup fs (d // HEADERS_) = None ->
  exists e, _static_handler fs d = Raise e.
Proof.
  intros H. unfold _static_handler, read_text, read_bytes, read.
  destruct (lookup fs (d // STATUS_)) as [[|st xs]|]; cbn [bind]; eauto.
  destruct (decode st) as [st'|]; cbn [bind]; eauto.
  destruct (to_int (strip (translate_newlines st'))) as [m|]; cbn [bind];
    eauto.
  destruct (lookup fs (d // DATA_)) as [[|bytes xd]|]; cbn [bind]; eauto.
  destruct (lookup fs (d // HEADERS_)) as [[|text xh]|]; cbn [bind]; eauto.
  destruct H as [H|[H|H]]; discriminate H.
Qed.

(** The mapping a successful [_static_handler] returns is the one of the
    HEADERS text. *)
Lemma static_handler_headers (fs : FS) (d : Path) (n : Z)
  (data : str) (hdrs : dict) :
  _static_handler fs d = Return (n, data, hdrs) ->
  exists text,
    read_text fs (d // HEADERS_) = Return text /\
    hdrs = headers_of_text text.
Proof.
  unfold _static_handler.
  destruct (read_text fs (d // STATUS_)) as [st|]; cbn [bind]; [|discriminate].
  destruct (to_int (strip st)) as [m|]; cbn [bind]; [|discriminate].
  destruct (read_bytes fs (d // DATA_)) as [bytes|]; cbn [bind]; [|discriminate].
  destruct (read_text fs (d // HEADERS_)) as [text|]; cbn [bind]; [|discriminate].
  rewrite header_lines_apply. cbn [bind]. intros [= _ _ <-].
  exists text. split; reflexivity.
Qed.

(** C8, as the code has it.  The header mapping is a [dict]: the
    colon-bearing lines are applied in file order, a name stands once, at
    the place of its first line, and holds the value of its last line.
    The values of the earlier lines of a repeated name are overwritten. *)
Theorem headers_last_write_wins (fs : FS) (d : Path) (n : Z)
  (data text : str) (hdrs : dict) :
  _static_handler fs d = Return (n, data, hdrs) ->
  read_text fs (d // HEADERS_) = Return text ->
  NoDup (keys hdrs) /\
  keys hdrs = first_occurrences [] (map fst (entries text)) /\
  forall k, get hdrs k = get (rev (entries text)) k.
Proof.
  intros H Ht. destruct (static_handler_headers _ _ _ _ _ H) as (t & Ht' & ->).
  rewrite Ht in Ht'. injection Ht' as <-. unfold headers_of_text.
  split; [|split].
  - apply NoDup_apply_entries. constructor.
  - now rewrite keys_apply_entries.
  - intros k. rewrite get_apply_entries.
    now destruct (get (rev (entries text)) k).
Qed.

End StaticFacts.

(* ================================================================== *)
(** ** The dynamic dispatcher *)
(* ================================================================== *)

Module DispatchFacts.
Import PyStr PyDict PurePath Chora Spec PathNotations.
Import PyStrFacts PurePathFacts.

Lemma handle_ok : seg_ok HANDLE = true.
Proof. reflexivity. Qed.

Lemma truediv_HANDLE (d : Path) : d // HANDLE = d ++ [HANDLE].
Proof. apply truediv_segment, handle_ok. Qed.

Lemma absolute_snoc (fs : FS) (d : Path) (s : str) :
  seg_ok s = true -> absolute fs (d ++ [s]) = absolute fs d ++ [s].
Proof.
  intros H. unfold absolute. destruct d as [|h t].
  - cbn [app is_absolute]. now rewrite (seg_ok_not_root s H), app_nil_r.
  - change (is_absolute ((h :: t) ++ [s])) with (is_root h).
    change (is_absolute (h :: t)) with (is_root h).
    destruct (is_root h); [reflexivity|]. apply app_assoc.
Qed.

Lemma absolute_idem (fs : FS) (p : Path) :
  absolute fs (absolute fs p) = absolute fs p.
Proof.
  unfold absolute. destruct (is_absolute p) eqn:E; [now rewrite E|].
  reflexivity.
Qed.

Lemma Path_single (s : str) : Path_ [s] = parse s.
Proof.
  unfold Path_, joinpath. simpl. now destruct (is_absolute (parse s)).
Qed.

Section WithPrograms.
Variable exec : FS -> Path -> Snapshot -> completed * (Path -> option node).
Variable snap : Snapshot.

(** One turn of [get_handler] on a directory that resolves to a HANDLE
    that runs and exits with zero: the call goes on with the directory
    the program names. *)
Lemma get_handler_hop (fs fs' : FS) (d d' : Path) (n : nat) :
  hop exec snap fs d fs' d' ->
  get_handler exec (S n) snap fs d = get_handler exec n snap fs' d'.
Proof.
  intros H. destruct H as [fs d r stdout stat' Hres Hex Hacc Hrun].
  cbn [get_handler]. rewrite Hres, truediv_HANDLE, Hex.
  unfold _dynamic_handler, subprocess_run.
  rewrite truediv_HANDLE, (absolute_snoc fs r HANDLE handle_ok).
  rewrite <- (absolute_snoc fs r HANDLE handle_ok), absolute_idem.
  rewrite (absolute_snoc fs r HANDLE handle_ok).
  rewrite Hacc, Hrun. cbn [negb Z.eqb]. cbv zeta.
  rewrite Path_single, (parent_snoc _ _ handle_ok).
  unfold joinpath.
  now destruct (is_absolute (parse (strip stdout))).
Qed.

(** A hop given by its equations, for file systems one can run. *)
Lemma hop_by (fs fs' : FS) (d d' r : Path) (stdout : str) :
  _get_directory fs d = Some r ->
  exists_ fs (r ++ [HANDLE]) = true ->
  access_x fs (absolute fs r ++ [HANDLE]) = true ->
  exec fs (absolute fs r ++ [HANDLE]) snap = (Exited 0 stdout, stat fs') ->
  cwd_segments fs' = cwd_segments fs ->
  d' = (if is_absolute (parse (strip stdout)) then parse (strip stdout)
        else absolute fs r ++ parse (strip stdout)) ->
  hop exec snap fs d fs' d'.
Proof.
  intros Hres Hex Hacc Hrun Hcwd ->. destruct fs' as [c s]. simpl in *.
  subst c. exact (hop_intro exec snap fs d r stdout s Hres Hex Hacc Hrun).
Qed.

(** [_dynamic_handler] on a HANDLE that may run: what the program comes
    to decides. *)
Lemma dynamic_handler_runs (fs : FS) (r : Path) (n : nat) :
  access_x fs (absolute fs r ++ [HANDLE]) = true ->
  _dynamic_handler exec (get_handler exec n snap) snap fs r =
  match subprocess_run exec fs (absolute fs r ++ [HANDLE]) snap with
  | (fs', Raise e) => Some (fs', Raise e)
  | (fs', Return stdout) =>
      get_handler exec n snap fs'
        (let emitted := parse (strip stdout) in
         if is_absolute emitted then emitted
         else absolute fs r ++ emitted)
  end.
Proof.
  intros Hacc. unfold _dynamic_handler.
  rewrite truediv_HANDLE, absolute_idem.
  rewrite (absolute_snoc fs r HANDLE handle_ok), Hacc. cbn [negb].
  destruct (subprocess_run exec fs (absolute fs r ++ [HANDLE]) snap)
    as [fs' [stdout|e]]; [|reflexivity].
  cbv zeta. rewrite Path_single, (parent_snoc _ _ handle_ok).
  unfold joinpath. now destruct (is_absolute (parse (strip stdout))).
Qed.

(** Where the recursion stops, and with what: the depth plays no part. *)
Lemma get_handler_ends (fs fs' : FS) (d : Path) (res : result Path) :
  ends exec snap fs d fs' res ->
  forall n, get_handler exec (S n) snap fs d = Some (fs', res).
Proof.
  intros H n.
  destruct H as [fs d Hres | fs d r Hres Hex | fs d r Hres Hex Hacc
                | fs d r code out stat' Hres Hex Hacc Hrun Hcode
                | fs d r stat' Hres Hex Hacc Hrun
                | fs d r e stat' Hres Hex Hacc Hrun];
    cbn [get_handler]; rewrite Hres; [reflexivity|..];
    rewrite truediv_HANDLE, Hex; [reflexivity|..].
  - unfold _dynamic_handler.
    now rewrite truediv_HANDLE, (absolute_snoc fs r HANDLE handle_ok), Hacc.
  - rewrite (dynamic_handler_runs fs r n Hacc). unfold subprocess_run.
    rewrite Hrun. apply Z.eqb_neq in Hcode. now rewrite Hcode.
  - rewrite (dynamic_handler_runs fs r n Hacc). unfold subprocess_run.
    now rewrite Hrun.
  - rewrite (dynamic_handler_runs fs r n Hacc). unfold subprocess_run.
    now rewrite Hrun.
Qed.

(** Conversely, whatever [get_handler] gives within some depth stands at
    the end of a chain of hops that is shorter than the depth. *)
Lemma get_handler_chain (fuel : nat) (fs fs2 : FS) (d : Path)
  (res : result Path) :
  get_handler exec fuel snap fs d = Some (fs2, res) ->
  exists n fs1 d1,
    n < fuel /\ hops exec snap n fs d fs1 d1 /\ ends exec snap fs1 d1 fs2 res.
Proof.
  revert fs d. induction fuel as [|fuel IH]; intros fs d; [discriminate|].
  cbn [get_handler]. destruct (_get_directory fs d) as [r|] eqn:Hres.
  2:{ intros [= <- <-]. exists 0, fs, d. split; [lia|].
      split; [constructor|now constructor]. }
  rewrite truediv_HANDLE. destruct (exists_ fs (r ++ [HANDLE])) eqn:Hex.
  2:{ intros [= <- <-]. exists 0, fs, d. split; [lia|].
      split; [constructor|now apply ends_static]. }
  destruct (access_x fs (absolute fs r ++ [HANDLE])) eqn:Hacc.
  2:{ unfold _dynamic_handler.
      rewrite truediv_HANDLE, (absolute_snoc fs r HANDLE handle_ok), Hacc.
      intros [= <- <-]. exists 0, fs, d. split; [lia|].
      split; [constructor|now apply ends_forbidden with (r := r)]. }
  rewrite (dynamic_handler_runs fs r fuel Hacc). unfold subprocess_run.
  destruct (exec fs (absolute fs r ++ [HANDLE]) snap) as [proc stat'] eqn:Hrun.
  destruct proc as [code out| |e].
  - destruct (Z.eqb_spec code 0) as [->|Hne].
    + intros H. destruct (IH _ _ H) as (n & fs1 & d1 & Hn & Hh & He).
      exists (S n), fs1, d1. split; [lia|]. split; [|exact He].
      eapply hops_cons; [|exact Hh].
      exact (hop_intro exec snap fs d r out stat' Hres Hex Hacc Hrun).
    + intros [= <- <-]. exists 0, fs, d. split; [lia|].
      split; [constructor|]. eapply ends_failed with (r := r); eauto.
  - intros [= <- <-]. exists 0, fs, d. split; [lia|].
    split; [constructor|]. eapply ends_undecodable with (r := r); eauto.
  - intros [= <- <-]. exists 0, fs, d. split; [lia|].
    split; [constructor|]. eapply ends_not_started with (r := r); eauto.
Qed.

(** Every place where a chain can stop gives a result. *)
Lemma terminal_ends (fs : FS) (d : Path) :
  terminal exec snap fs d -> exists fs' res, ends exec snap fs d fs' res.
Proof.
  intros H.
  destruct H as [fs d Hres | fs d r Hres Hex | fs d r Hres Hex Hacc
                | fs d r proc stat' Hres Hex Hacc Hrun Hproc].
  - eexists _, _. now apply ends_not_found.
  - eexists _, _. now apply ends_static with (r := r).
  - eexists _, _. now apply ends_forbidden with (r := r).
  - destruct proc as [code out| |e].
    + destruct (Z.eq_dec code 0) as [->|Hne]; [now destruct (Hproc out)|].
      eexists _, _. eapply ends_failed with (r := r); eauto.
    + eexists _, _. eapply ends_undecodable with (r := r); eauto.
    + eexists _, _. eapply ends_not_started with (r := r); eauto.
Qed.

Lemma get_handler_terminal (fs : FS) (d : Path) :
  terminal exec snap fs d ->
  exists res, forall n, get_handler exec (S n) snap fs d = Some res.
Proof.
  intros H. destruct (terminal_ends fs d H) as (fs' & res & He).
  exists (fs', res). now apply get_handler_ends.
Qed.

(** C7. A directory that holds HANDLE is dispatched dynamically, its
    static artifacts notwithstanding (a hop does not look at them): the
    trimmed output of the program names the next directory, relative to
    the directory of the program when it is not absolute, and that
    directory is resolved and dispatched in turn.  So a chain of [n] such
    hops is followed to its end, and at any depth past [n] [get_handler]
    gives what stands at the end: the static directory found there, or the
    exception of the failure there (nothing resolves, HANDLE may not be
    executed, the program fails, cannot be started or prints what is no
    text). *)
Theorem dynamic_chain_followed (n : nat) (fs fs1 fs2 : FS) (d d1 : Path)
  (res : result Path) :
  hops exec snap n fs d fs1 d1 ->
  ends exec snap fs1 d1 fs2 res ->
  forall k, get_handler exec (S n + k) snap fs d = Some (fs2, res).
Proof.
  induction 1 as [fs d | n fs fs1 fs' d d1 d' Hhop _ IH]; intros Hend k.
  - now apply get_handler_ends.
  - change (S (S n) + k) with (S (S n + k)).
    rewrite (get_handler_hop _ _ _ _ _ Hhop). now apply IH.
Qed.

(** C9, as the code has it.  Dispatch ends when the chain of handlers
    comes, after finitely many hops, to a directory where it can stop
    (nothing resolves, no HANDLE, a HANDLE that may not run or fails):
    past [n] hops any depth above [n] gives the same result.  Nothing in
    the code bounds the chain or remembers the directories seen. *)
Theorem dispatch_ends_at_terminal (n : nat) (fs fs' : FS) (d d' : Path) :
  hops exec snap n fs d fs' d' ->
  terminal exec snap fs' d' ->
  exists res, forall k, get_handler exec (S n + k) snap fs d = Some res.
Proof.
  induction 1 as [fs d | n fs fs1 fs2 d d1 d2 Hhop _ IH]; intros Hterm.
  - destruct (get_handler_terminal fs d Hterm) as [res Hres].
    exists res. intros k. apply Hres.
  - destruct (IH Hterm) as [res Hres]. exists res. intros k.
    change (S (S n) + k) with (S (S n + k)).
    rewrite (get_handler_hop _ _ _ _ _ Hhop). apply Hres.
Qed.

End WithPrograms.

End DispatchFacts.

(* ================================================================== *)
(** ** The request target *)
(* ================================================================== *)

Module UrlFacts.
Import PyStr UrlParse PyStrFacts.

Lemma lstrip_suffix (p : ascii -> bool) (c : ascii) (u : str) :
  in_ c u = false -> in_ c (lstrip_by p u) = false.
Proof.
  induction u as [|x u IH]; [reflexivity|]. intros H. cbn [lstrip_by].
  destruct (p x); [|exact H]. rewrite in_cons in H.
  apply orb_false_iff in H as [_ H]. now apply IH.
Qed.

Lemma lstrip_app_stop (p : ascii -> bool) (u x : str) (c : ascii) :
  p c = false -> lstrip_by p (u ++ c :: x) = lstrip_by p u ++ c :: x.
Proof.
  intros Hc. induction u as [|a u IH]; cbn [lstrip_by app].
  - now rewrite Hc.
  - now destruct (p a).
Qed.

Lemma in_filter (f : ascii -> bool) (c : ascii) (u : str) :
  in_ c u = false -> in_ c (filter f u) = false.
Proof.
  induction u as [|x u IH]; [reflexivity|]. rewrite in_cons. intros H.
  apply orb_false_iff in H as [Hx Hu]. cbn [filter].
  destruct (f x); [rewrite in_cons, Hx|]; now apply IH.
Qed.

Lemma find_lt (c : ascii) (u : str) (i : nat) :
  find c u = Some i -> i < List.length u.
Proof.
  revert i. induction u as [|x u IH]; intros i; cbn [find]; [discriminate|].
  destruct (Ascii.eqb x c).
  - intros [= <-]. simpl. lia.
  - destruct (find c u) as [j|]; [|discriminate].
    intros [= <-]. specialize (IH j eq_refl). simpl. lia.
Qed.

Lemma find_app_found (c : ascii) (u x : str) (i : nat) :
  find c u = Some i -> find c (u ++ x) = Some i.
Proof.
  revert i. induction u as [|a u IH]; intros i; cbn [find app]; [discriminate|].
  destruct (Ascii.eqb a c); [auto|].
  destruct (find c u) as [j|]; [|discriminate].
  intros [= <-]. now rewrite (IH j eq_refl).
Qed.

(** A first occurrence past an [u] without [c] lies beyond the character
    after [u], when that is not [c] either. *)
Lemma find_past (c a : ascii) (u x : str) (i : nat) :
  find c u = None -> Ascii.eqb a c = false ->
  find c (u ++ a :: x) = Some i -> List.length u < i.
Proof.
  intros Hu Ha. revert i Hu.
  induction u as [|b u IH]; intros i; cbn [find app].
  - intros _. rewrite Ha. destruct (find c x); [|discriminate].
    intros [= <-]. simpl. lia.
  - destruct (Ascii.eqb b c); [discriminate|].
    destruct (find c u) as [j|] eqn:E; [discriminate|]. intros _.
    destruct (find c (u ++ a :: x)) as [j|]; [|discriminate].
    intros [= <-]. specialize (IH j eq_refl eq_refl). simpl. lia.
Qed.

Lemma first_is_alpha_app (u x : str) :
  u <> [] -> first_is_alpha (u ++ x) = first_is_alpha u.
Proof. destruct u; [congruence|reflexivity]. Qed.

Lemma skipn_suffix (c : ascii) (n : nat) (u : str) :
  in_ c u = false -> in_ c (skipn n u) = false.
Proof.
  revert u. induction n as [|n IH]; intros u H; [exact H|].
  destruct u as [|x u]; [reflexivity|]. rewrite in_cons in H.
  apply orb_false_iff in H as [_ H]. now apply IH.
Qed.

Lemma from_delim_suffix (c : ascii) (u : str) :
  in_ c u = false -> in_ c (from_delim u) = false.
Proof.
  induction u as [|a u IH]; [reflexivity|]. intros H. cbn [from_delim].
  destruct (netloc_end a); [exact H|]. rewrite in_cons in H.
  apply orb_false_iff in H as [_ H]. now apply IH.
Qed.

Lemma before_app_found (c : ascii) (u x : str) :
  in_ c u = true -> before c (u ++ x) = before c u.
Proof.
  induction u as [|a u IH]; [discriminate|]. rewrite in_cons.
  cbn [before app]. destruct (Ascii.eqb a c); [reflexivity|].
  simpl. intros H. now rewrite IH.
Qed.

Lemma before_app_absent (c : ascii) (u x : str) :
  in_ c u = false -> before c (u ++ x) = u ++ before c x.
Proof.
  induction u as [|a u IH]; [reflexivity|]. rewrite in_cons.
  cbn [before app]. intros H. apply orb_false_iff in H as [Ha Hu].
  now rewrite Ha, IH.
Qed.

Lemma before_absent (c : ascii) (u : str) :
  in_ c u = false -> before c u = u.
Proof.
  intros H. rewrite <- (app_nil_r u) at 1.
  rewrite (before_app_absent c u [] H). apply app_nil_r.
Qed.

(** What follows the first [?] or [#] of a target. *)
Section AfterThePath.
Variable c : ascii.
Hypothesis c_starts : c = "?" \/ c = "#".

Ltac by_cases := destruct c_starts as [-> | ->]; reflexivity.

Lemma delimiter_not_stripped : c0_control_or_space c = false.
Proof. by_cases. Qed.

Lemma delimiter_not_removed : negb (unsafe_byte c) = true.
Proof. by_cases. Qed.

Lemma delimiter_no_scheme_char : scheme_char c = false.
Proof. by_cases. Qed.

Lemma delimiter_no_colon : Ascii.eqb c ":" = false.
Proof. by_cases. Qed.

Lemma delimiter_no_slash : Ascii.eqb c "/" = false.
Proof. by_cases. Qed.

Lemma delimiter_ends_netloc : netloc_end c = true.
Proof. by_cases. Qed.

(** A prefix that reaches past [u] takes [c] with it. *)
Lemma scheme_stops (u x : str) (n : nat) :
  List.length u < n ->
  forallb scheme_char (firstn n (u ++ c :: x)) = false.
Proof.
  intros Hn. rewrite firstn_app, forallb_app.
  replace (n - List.length u) with (S (n - List.length u - 1)) by lia.
  cbn [firstn forallb]. rewrite delimiter_no_scheme_char.
  apply andb_false_r.
Qed.

Lemma split_scheme_app (u x : str) :
  in_ c u = false ->
  split_scheme (u ++ c :: x) =
  (fst (split_scheme u), snd (split_scheme u) ++ c :: x) /\
  in_ c (snd (split_scheme u)) = false.
Proof.
  intros Hu. unfold split_scheme.
  destruct (find ":" u) as [[|i]|] eqn:E.
  - rewrite (find_app_found _ _ _ _ E). auto.
  - rewrite (find_app_found _ _ _ _ E).
    pose proof (find_lt _ _ _ E) as Hlt.
    assert (u <> []) as Hne by (destruct u; [discriminate|congruence]).
    rewrite (first_is_alpha_app u _ Hne).
    rewrite firstn_app. replace (S i - List.length u) with 0 by lia.
    rewrite firstn_O, app_nil_r.
    destruct (first_is_alpha u && forallb scheme_char (firstn (S i) u));
      cbn [fst snd]; [|auto].
    rewrite skipn_app. replace (S (S i) - List.length u) with 0 by lia.
    rewrite skipn_O. split; [reflexivity|]. now apply skipn_suffix.
  - destruct (find ":" (u ++ c :: x)) as [[|i]|] eqn:E'; cbn [fst snd]; auto.
    pose proof (find_past ":" c u x (S i) E delimiter_no_colon E') as Hlt.
    rewrite (scheme_stops u x (S i) Hlt).
    now rewrite andb_false_r.
Qed.

Lemma from_delim_app (u x : str) :
  from_delim (u ++ c :: x) = from_delim u ++ c :: x.
Proof.
  induction u as [|a u IH]; cbn [from_delim app].
  - now rewrite delimiter_ends_netloc.
  - now destruct (netloc_end a).
Qed.

Lemma drop_netloc_app (u x : str) :
  in_ c u = false ->
  drop_netloc (u ++ c :: x) = drop_netloc u ++ c :: x /\
  in_ c (drop_netloc u) = false.
Proof.
  intros Hu. destruct u as [|a [|b u]]; cbn [drop_netloc app].
  - split; [|reflexivity]. destruct x as [|b x]; [reflexivity|].
    now rewrite delimiter_no_slash.
  - rewrite delimiter_no_slash, andb_false_r. auto.
  - destruct (Ascii.eqb a "/" && Ascii.eqb b "/"); [|auto].
    split; [apply from_delim_app|]. apply from_delim_suffix.
    now apply (skipn_suffix c 2 (a :: b :: u)).
Qed.

Lemma path_app (u x : str) :
  in_ c u = false ->
  before "?" (before "#" (u ++ c :: x)) = before "?" (before "#" u).
Proof.
  intros Hu. destruct c_starts as [-> | ->].
  - destruct (in_ "#" u) eqn:Hh.
    + now rewrite (before_app_found _ _ _ Hh).
    + rewrite (before_app_absent _ _ _ Hh), (before_absent _ _ Hh).
      rewrite (before_app_absent _ _ _ Hu), (before_absent _ _ Hu).
      cbn [before]. change (Ascii.eqb "?" "?") with true. apply app_nil_r.
  - rewrite (before_app_absent _ _ _ Hu), (before_absent _ _ Hu).
    cbn [before]. change (Ascii.eqb "#" "#") with true.
    now rewrite app_nil_r.
Qed.

Lemma urlsplit_app (u x : str) :
  in_ c u = false -> urlsplit (u ++ c :: x) = urlsplit u.
Proof.
  intros Hu. unfold urlsplit.
  rewrite (lstrip_app_stop c0_control_or_space u x c delimiter_not_stripped).
  pose proof (lstrip_suffix c0_control_or_space c u Hu) as H1.
  rewrite filter_app. cbn [filter]. rewrite delimiter_not_removed.
  pose proof (in_filter (fun a => negb (unsafe_byte a)) c _ H1) as H2.
  destruct (split_scheme_app _ (filter (fun a => negb (unsafe_byte a)) x) H2)
    as [E3 H3].
  rewrite E3.
  destruct (split_scheme
              (filter (fun a => negb (unsafe_byte a))
                      (lstrip_by c0_control_or_space u))) as [sch rest].
  cbn [fst snd] in *.
  destruct (drop_netloc_app rest
              (filter (fun a => negb (unsafe_byte a)) x) H3) as [E4 H4].
  rewrite E4, (path_app _ _ H4). reflexivity.
Qed.

(** The path of a target does not depend on what follows its first [?]
    or [#]. *)
Lemma urlparse_path_app (u x : str) :
  in_ c u = false -> urlparse_path (u ++ c :: x) = urlparse_path u.
Proof.
  intros Hu. unfold urlparse_path. now rewrite (urlsplit_app u x Hu).
Qed.

Lemma upto_delim_app (u x : str) :
  upto_delim (u ++ c :: x) = upto_delim u.
Proof.
  induction u as [|a u IH]; cbn [upto_delim app].
  - now rewrite delimiter_ends_netloc.
  - destruct (netloc_end a); [reflexivity|now rewrite IH].
Qed.

(** Nor does its network location, nor whether it parses. *)
Lemma netloc_app (u x : str) :
  in_ c u = false -> netloc (u ++ c :: x) = netloc u.
Proof.
  intros Hu. unfold netloc.
  rewrite (lstrip_app_stop c0_control_or_space u x c delimiter_not_stripped).
  pose proof (lstrip_suffix c0_control_or_space c u Hu) as H1.
  rewrite filter_app. cbn [filter]. rewrite delimiter_not_removed.
  pose proof (in_filter (fun a => negb (unsafe_byte a)) c _ H1) as H2.
  destruct (split_scheme_app _ (filter (fun a => negb (unsafe_byte a)) x) H2)
    as [E3 _].
  rewrite E3.
  destruct (split_scheme
              (filter (fun a => negb (unsafe_byte a))
                      (lstrip_by c0_control_or_space u))) as [sch rest].
  cbn [fst snd]. destruct rest as [|a [|b rest]]; cbn [app].
  - destruct (filter (fun a => negb (unsafe_byte a)) x); [reflexivity|].
    now rewrite delimiter_no_slash.
  - now rewrite delimiter_no_slash, andb_false_r.
  - destruct (Ascii.eqb a "/" && Ascii.eqb b "/"); [|reflexivity].
    apply upto_delim_app.
Qed.

Lemma urlsplit_raises_app (u x : str) :
  in_ c u = false -> urlsplit_raises (u ++ c :: x) = urlsplit_raises u.
Proof.
  intros Hu. unfold urlsplit_raises. now rewrite (netloc_app u x Hu).
Qed.

End AfterThePath.

End UrlFacts.

(* ================================================================== *)
(** ** The request handler *)
(* ================================================================== *)

Module RequestFacts.
Import PyStr PyDict PurePath UrlParse Chora Spec PathNotations.
Import PyStrFacts PurePathFacts ResolverFacts UrlFacts.

(** Programs that give the same for two scratch directories lead to the
    same handler. *)
Lemma get_handler_same_programs
  (exec : FS -> Path -> Snapshot -> completed * (Path -> option node))
  (snap1 snap2 : Snapshot) :
  (forall fs h, exec fs h snap1 = exec fs h snap2) ->
  forall fuel fs d,
    get_handler exec fuel snap1 fs d = get_handler exec fuel snap2 fs d.
Proof.
  intros Hexec. induction fuel as [|fuel IH]; intros fs d; [reflexivity|].
  cbn [get_handler]. destruct (_get_directory fs d) as [r|]; [|reflexivity].
  destruct (exists_ fs (r // HANDLE)); [|reflexivity].
  unfold _dynamic_handler, subprocess_run. rewrite Hexec.
  destruct (negb (access_x fs (absolute fs (r // HANDLE)))); [reflexivity|].
  destruct (exec fs (absolute fs (absolute fs (r // HANDLE))) snap2)
    as [[code out| |e] st];
    [|reflexivity..].
  destruct (code =? 0)%Z; [|reflexivity]. apply IH.
Qed.

(** Whatever [get_handler] or the handler it returns raises leaves
    [_handle_request] as it is. *)
Lemma failure_leaves_handle_request
  (exec : FS -> Path -> Snapshot -> completed * (Path -> option node))
  (fuel : nat) (root_dir : Path) (fs fs' : FS) (req : Request) (method : str)
  (snap : Snapshot) (e : exn) :
  urlsplit_raises (path req) = false ->
  _cache_request req = Return snap ->
  get_handler exec fuel snap fs (method_dir root_dir (path req) method)
  = Some (fs', Raise e) \/
  (exists d,
      get_handler exec fuel snap fs (method_dir root_dir (path req) method)
      = Some (fs', Return d) /\ _static_handler fs' d = Raise e) ->
  _handle_request exec fuel root_dir fs req method = Some (fs', Uncaught e).
Proof.
  intros Hurl Hsnap H. unfold _handle_request. rewrite Hurl, Hsnap.
  destruct H as [-> | (d & -> & ->)]; reflexivity.
Qed.

(** A response is what a static handler returned: no status is made up for
    a failure. *)
Lemma response_is_static
  (exec : FS -> Path -> Snapshot -> completed * (Path -> option node))
  (fuel : nat) (root_dir : Path) (fs fs' : FS) (req : Request) (method : str)
  (n : Z) (hdrs : dict) (data : str) :
  _handle_request exec fuel root_dir fs req method
  = Some (fs', Responded n hdrs data) ->
  exists snap d,
    _cache_request req = Return snap /\
    get_handler exec fuel snap fs (method_dir root_dir (path req) method)
    = Some (fs', Return d) /\
    _static_handler fs' d = Return (n, data, hdrs).
Proof.
  unfold _handle_request.
  destruct (urlsplit_raises (path req)); [discriminate|].
  destruct (_cache_request req) as [snap|]; [|discriminate].
  destruct (get_handler exec fuel snap fs
              (method_dir root_dir (path req) method))
    as [[fs1 [d|]]|] eqn:G; try discriminate.
  destruct (_static_handler fs1 d) as [[[m bytes] h]|] eqn:E; [|discriminate].
  destruct (forallb sendable h); [|discriminate].
  intros [= <- <- <- <-]. exists snap, d. auto.
Qed.

(** The route target of a request is well formed, as [_get_directory]
    takes it. *)
Lemma method_dir_wf (root_dir : Path) (target method : str) :
  wf root_dir = true -> wf (method_dir root_dir target method) = true.
Proof.
  intros H. unfold method_dir. now repeat apply truediv_wf.
Qed.

(** So is the directory a HANDLE program names. *)
Lemma hop_wf
  (exec : FS -> Path -> Snapshot -> completed * (Path -> option node))
  (snap : Snapshot) (fs fs' : FS) (d d' : Path) :
  forallb seg_ok (cwd_segments fs) = true ->
  wf d = true -> hop exec snap fs d fs' d' -> wf d' = true.
Proof.
  intros Hcwd Hd H. destruct H as [fs d r stdout stat' Hres Hex Hacc Hrun].
  cbv zeta. destruct (is_absolute (parse (strip stdout))) eqn:E.
  - apply parse_wf.
  - apply wf_app; [|apply relative_segments; [apply parse_wf|exact E]].
    pose proof (get_directory_wf fs d r Hd Hres) as Hr.
    unfold absolute. destruct (is_absolute r) eqn:Er; [exact Hr|].
    apply wf_app; [|now apply relative_segments].
    unfold cwd. cbn [wf]. now rewrite Hcwd.
Qed.

(** C10, as the code has it.  Only the path component of the target goes
    into the route: a target and the same target followed by a query
    string or a fragment give the same route directory.  The two requests
    get the same response as long as the HANDLE programs do not tell their
    request lines apart; the request line, query string included, is in
    the scratch directory the programs are given. *)
Theorem query_string_discarded
  (exec : FS -> Path -> Snapshot -> completed * (Path -> option node))
  (fuel : nat) (root_dir : Path) (fs : FS) (method : str)
  (line1 line2 target rest : str) (c : ascii)
  (hs : list (str * str)) (body : str) :
  c = "?" \/ c = "#" ->
  in_ c target = false ->
  let req1 := mkRequest line1 target hs body in
  let req2 := mkRequest line2 (target ++ c :: rest) hs body in
  method_dir root_dir (path req2) method
  = method_dir root_dir (path req1) method /\
  ((forall fs h hd b,
       exec fs h (mkSnapshot line2 hd b) = exec fs h (mkSnapshot line1 hd b)) ->
   _handle_request exec fuel root_dir fs req2 method
   = _handle_request exec fuel root_dir fs req1 method).
Proof.
  intros Hc Ht req1 req2.
  assert (method_dir root_dir (path req2) method
          = method_dir root_dir (path req1) method) as Hdir.
  { unfold method_dir, req1, req2. cbn [path].
    now rewrite (urlparse_path_app c Hc target rest Ht). }
  split; [exact Hdir|]. intros Hexec.
  unfold _handle_request. rewrite Hdir.
  replace (urlsplit_raises (path req2)) with (urlsplit_raises (path req1))
    by (symmetry; apply (urlsplit_raises_app c Hc target rest Ht)).
  destruct (urlsplit_raises (path req1)); [reflexivity|].
  unfold _cache_request, req1, req2. cbn [requestline headers rfile].
  destruct (match headers_get hs (lit "Content-Length") with
            | Some v => to_int v
            | None => Return 0%Z
            end) as [len|e]; cbn [bind]; [|reflexivity].
  destruct (rfile_read body len) as [received|e]; cbn [bind]; [|reflexivity].
  destruct (decode received) as [text|e]; cbn [bind]; [|reflexivity].
  now rewrite (get_handler_same_programs exec _ _ (fun fs h => Hexec fs h _ _)).
Qed.

End RequestFacts.

(* ================================================================== *)
(** ** The handler at work on the site *)
(* ================================================================== *)

Module SiteFacts.
Import PyStr PyDict PurePath UrlParse Chora Spec Site PathNotations.
Import ResolverFacts StaticFacts DispatchFacts RequestFacts.
Local Open Scope string_scope.
Local Open Scope list_scope.

(** *** Resolution *)

(** With a template at either position, the one at the later position is
    taken. *)
Example later_template_first :
  route "/users/7" = P "www/users/7/GET" /\
  is_dir site (P "www/__TEMPLATE__/7/GET") = true /\
  _get_directory site (route "/users/7") = Some (P "www/users/__TEMPLATE__/GET").
Proof. vm_compute. repeat split. Qed.

(** C1 at the route of [/users/7]. *)
Lemma get_directory_resolves_witness :
  wf (route "/users/7") = true /\
  match _get_directory site (route "/users/7") with
  | Some c =>
      (is_dir site (route "/users/7") = true /\ c = route "/users/7") \/
      (is_dir site (route "/users/7") = false /\
       exists k, k < List.length (route "/users/7") /\
                 c = replace_segment k (route "/users/7") /\
                 is_dir site c = true /\
                 forall j, k < j < List.length (route "/users/7") ->
                           is_dir site (replace_segment j (route "/users/7"))
                           = false)
  | None =>
      is_dir site (route "/users/7") = false /\
      forall k, k < List.length (route "/users/7") ->
                is_dir site (replace_segment k (route "/users/7")) = false
  end.
Proof.
  split; [reflexivity|].
  apply (get_directory_resolves site (route "/users/7")). reflexivity.
Defined.

(** *** Static routes *)



(** Line ends of every kind are line ends, white space that is not ASCII
    is trimmed, and DATA is taken byte for byte. *)
Example mac_answered :
  _handle_request exec 1 root_dir Encodings.site (request "/mac") GET
  = Some (Encodings.site,
          Responded 204
            [(lit "A", lit "1"); (lit "X-Name", Encodings.cafe_utf8);
             (lit "B", lit "2")]
            (lit "a" ++ Encodings.cr ++ lit "b")).
Proof. reflexivity. Qed.

(** The request for it is answered with these. *)
Example hello_answered :
  run 1 "/hello"
  = Some (Responded 200
            [(lit "Content-Type", lit "text/plain"); (lit "X-Empty", []);
             (lit "X-Time", lit "12:30")]
            (text ["hi"])).
Proof. vm_compute. reflexivity. Qed.

(** C8 does not hold as stated.  Two lines name [Set-Cookie]: the mapping
    keeps the second value only, the entry of the first line is not in
    it. *)
Lemma repeated_header_overwritten :
  exists hdrs,
    _static_handler site (P "www/cookies/GET") = Return (200%Z, [], hdrs) /\
    In cookie_line_1 (entries (text ["Set-Cookie: a=1"; "Set-Cookie: b=2"])) /\
    ~ In cookie_line_1 hdrs.
Proof.
  exists [cookie_line_2]. split; [vm_compute; reflexivity|].
  split; [vm_compute; auto|].
  intros [H|[]]. vm_compute in H. discriminate H.
Qed.

(** C8, as the code has it, at [cookies/GET]. *)
Lemma headers_last_write_wins_witness :
  _static_handler site (P "www/cookies/GET")
  = Return (200%Z, [], [cookie_line_2]) /\
  NoDup (keys [cookie_line_2]) /\
  keys [cookie_line_2]
  = first_occurrences []
      (map fst (entries (text ["Set-Cookie: a=1"; "Set-Cookie: b=2"]))) /\
  forall k, PyDict.get [cookie_line_2] k
            = PyDict.get
                (rev (entries (text ["Set-Cookie: a=1"; "Set-Cookie: b=2"]))) k.
Proof.
  split; [reflexivity|].
  exact (headers_last_write_wins site (P "www/cookies/GET") 200%Z [] _
           [cookie_line_2] eq_refl eq_refl).
Defined.

(** *** Dynamic routes *)

(** The HANDLE of [dynamic/GET], which stands beside static artifacts,
    names [next]; the HANDLE there names the static [hello/GET]. *)
Lemma dynamic_chain (snap : Snapshot) :
  hops exec snap 2 site (P "www/dynamic/GET") site (P "/srv/www/hello/GET").
Proof.
  apply hops_cons with (fs1 := site) (d1 := P "/srv/www/dynamic/GET/next").
  - apply hop_by with (r := P "www/dynamic/GET") (stdout := text ["next"]);
      reflexivity.
  - apply hops_cons with (fs1 := site) (d1 := P "/srv/www/hello/GET").
    + apply hop_by with (r := P "/srv/www/dynamic/GET/next")
                        (stdout := text ["/srv/www/hello/GET"]); reflexivity.
    + apply hops_nil.
Qed.

Example static_artifacts_beside_HANDLE :
  _static_handler site (P "www/dynamic/GET") = Return (418%Z, lit "static", []) /\
  run 3 "/dynamic"
  = Some (Responded 200
            [(lit "Content-Type", lit "text/plain"); (lit "X-Empty", []);
             (lit "X-Time", lit "12:30")]
            (text ["hi"])).
Proof. vm_compute. split; reflexivity. Qed.

Lemma hello_ends (snap : Snapshot) :
  ends exec snap site (P "/srv/www/hello/GET")
       site (Return (P "/srv/www/hello/GET")).
Proof.
  apply ends_static with (r := P "/srv/www/hello/GET"); reflexivity.
Qed.

(** C7 at the chain that starts at [dynamic/GET], where HANDLE stands
    beside static artifacts: the handler is the one of [hello/GET]. *)
Lemma dynamic_chain_followed_witness :
  hops exec (snapshot "/dynamic") 2 site (P "www/dynamic/GET")
       site (P "/srv/www/hello/GET") /\
  ends exec (snapshot "/dynamic") site (P "/srv/www/hello/GET")
       site (Return (P "/srv/www/hello/GET")) /\
  forall k,
    get_handler exec (3 + k) (snapshot "/dynamic") site (P "www/dynamic/GET")
    = Some (site, Return (P "/srv/www/hello/GET")).
Proof.
  split; [apply dynamic_chain|]. split; [apply hello_ends|].
  exact (dynamic_chain_followed exec (snapshot "/dynamic") 2 site site site
           (P "www/dynamic/GET") (P "/srv/www/hello/GET")
           (Return (P "/srv/www/hello/GET"))
           (dynamic_chain (snapshot "/dynamic"))
           (hello_ends (snapshot "/dynamic"))).
Defined.

Lemma hello_terminal (snap : Snapshot) :
  terminal exec snap site (P "/srv/www/hello/GET").
Proof.
  apply terminal_static with (r := P "/srv/www/hello/GET"); reflexivity.
Qed.

(** C9, as the code has it, at the chain that starts at [dynamic/GET]. *)
Lemma dispatch_ends_at_terminal_witness :
  hops exec (snapshot "/dynamic") 2 site (P "www/dynamic/GET")
       site (P "/srv/www/hello/GET") /\
  terminal exec (snapshot "/dynamic") site (P "/srv/www/hello/GET") /\
  exists res, forall k,
    get_handler exec (3 + k) (snapshot "/dynamic") site (P "www/dynamic/GET")
    = Some res.
Proof.
  split; [apply dynamic_chain|]. split; [apply hello_terminal|].
  exact (dispatch_ends_at_terminal exec (snapshot "/dynamic") 2 site site
           (P "www/dynamic/GET") (P "/srv/www/hello/GET")
           (dynamic_chain (snapshot "/dynamic"))
           (hello_terminal (snapshot "/dynamic"))).
Defined.

(** The HANDLE of [silent/GET] prints nothing: the empty path, taken
    relative to the directory of the program, is that directory again. *)
Lemma silent_hop (snap : Snapshot) :
  hop exec snap site (P "/srv/www/silent/GET") site (P "/srv/www/silent/GET").
Proof.
  apply hop_by with (r := P "/srv/www/silent/GET") (stdout := []); reflexivity.
Qed.

Lemma silent_first_hop (snap : Snapshot) :
  hop exec snap site (P "www/silent/GET") site (P "/srv/www/silent/GET").
Proof.
  apply hop_by with (r := P "www/silent/GET") (stdout := []); reflexivity.
Qed.

Lemma silent_loops (snap : Snapshot) (fuel : nat) :
  get_handler exec fuel snap site (P "/srv/www/silent/GET") = None.
Proof.
  induction fuel as [|fuel IH]; [reflexivity|].
  now rewrite (get_handler_hop exec snap _ _ _ _ fuel (silent_hop snap)).
Qed.

(** C9 does not hold as stated: no depth is enough for the request of
    [/silent], whose HANDLE leads back to its own directory. *)
Lemma silent_never_answered :
  ~ exists fuel, run fuel "/silent" <> None.
Proof.
  intros [fuel H]. apply H. clear H. unfold run, _handle_request.
  change (_cache_request (request "/silent"))
    with (Return (snapshot "/silent")).
  change (method_dir root_dir (path (request "/silent")) GET)
    with (P "www/silent/GET").
  destruct fuel as [|fuel]; [reflexivity|].
  rewrite (get_handler_hop exec _ _ _ _ _ fuel
             (silent_first_hop (snapshot "/silent"))).
  now rewrite silent_loops.
Qed.

(** *** Failures: what leaves [_handle_request] *)

(** C3. A static directory without STATUS: [FileNotFoundError] leaves
    [_handle_request], no response is sent. *)
Theorem missing_artifact_uncaught :
  run 1 "/incomplete" = Some (Uncaught FileNotFoundError) /\
  option_map http_status (run 1 "/incomplete") = Some None.
Proof. vm_compute. split; reflexivity. Qed.

(** C4. A HANDLE without the executable bit: [PermissionError] leaves
    [_handle_request], no response is sent. *)
Theorem non_executable_uncaught :
  run 1 "/non_executable" = Some (Uncaught PermissionError) /\
  option_map http_status (run 1 "/non_executable") = Some None.
Proof. vm_compute. split; reflexivity. Qed.

(** C5. A STATUS that holds [not_a_number]: [ValueError] leaves
    [_handle_request], no response is sent. *)
Theorem malformed_status_uncaught :
  run 1 "/malformed_status" = Some (Uncaught ValueError) /\
  option_map http_status (run 1 "/malformed_status") = Some None.
Proof. vm_compute. split; reflexivity. Qed.

(** C6. A HANDLE that exits with 1, and a HANDLE that exits with 0 and
    names a directory that does not resolve: [CalledProcessError] and
    [FileNotFoundError] leave [_handle_request], no response is sent. *)
Theorem handler_failures_uncaught :
  run 1 "/failing_script" = Some (Uncaught (CalledProcessError 1)) /\
  run 2 "/invalid_output" = Some (Uncaught FileNotFoundError) /\
  option_map http_status (run 1 "/failing_script") = Some None /\
  option_map http_status (run 2 "/invalid_output") = Some None.
Proof. vm_compute. repeat split; reflexivity. Qed.

(** *** Query strings *)

(** C10 does not hold as stated.  The HANDLE of [search/GET] reads the
    request line: with a query string it names another directory than
    without, and the two requests, which have the same route, get different
    responses. *)
Lemma query_string_seen_by_HANDLE :
  route "/search?q=x" = route "/search" /\
  run 2 "/search" = Some (Responded 200 [] (lit "everything")) /\
  run 2 "/search?q=x" = Some (Responded 200 [] (lit "matches")) /\
  run 2 "/search?q=x" <> run 2 "/search".
Proof.
  split; [vm_compute; reflexivity|].
  split; [vm_compute; reflexivity|].
  split; [vm_compute; reflexivity|].
  vm_compute. discriminate.
Qed.

(** C10, as the code has it, at [/search] and [/search?q=x], with programs
    that do not look at the request line. *)
Lemma query_string_discarded_witness :
  in_ "?"%char (lit "/search") = false /\
  method_dir root_dir (lit "/search" ++ "?"%char :: lit "q=x") GET
  = method_dir root_dir (lit "/search") GET /\
  _handle_request exec_blind 2 root_dir site
    (mkRequest (lit "GET /search?q=x HTTP/1.1")
               (lit "/search" ++ "?"%char :: lit "q=x") [] []) GET
  = _handle_request exec_blind 2 root_dir site
      (mkRequest (lit "GET /search HTTP/1.1") (lit "/search") [] []) GET.
Proof.
  split; [reflexivity|].
  destruct (query_string_discarded exec_blind 2 root_dir site GET
              (lit "GET /search HTTP/1.1") (lit "GET /search?q=x HTTP/1.1")
              (lit "/search") (lit "q=x") "?"%char [] []
              (or_introl eq_refl) eq_refl) as [Hdir Hsame].
  split; [exact Hdir|]. apply Hsame. intros fs h hd b. reflexivity.
Defined.

End SiteFacts.

(* ================================================================== *)
(** ** More on the path resolver *)
(* ================================================================== *)

Module ResolverMore.
Import PyStr PurePath Chora Spec PurePathFacts ResolverFacts.

Lemma loop_returns_directory (fs : FS) (parts : list str) (i : nat) (c : Path) :
  _get_directory_loop fs parts i = Some c -> is_dir fs c = true.
Proof.
  induction i as [|i IH]; cbn [_get_directory_loop]; [discriminate|].
  rewrite exists_and_is_dir.
  destruct (is_dir fs (Path_ (firstn i parts ++ TEMPLATE :: skipn (S i) parts)))
    eqn:E; [|exact IH].
  now intros [= <-].
Qed.

Lemma get_directory_sound (fs : FS) (d r : Path) :
  _get_directory fs d = Some r -> is_dir fs r = true.
Proof.
  unfold _get_directory. destruct (is_dir fs d) eqn:E.
  - now intros [= <-].
  - apply loop_returns_directory.
Qed.

(** X1. Whatever [_get_directory] returns is a directory of the file
    system, and resolving it once more gives it back: a well-formed target
    is not asked for here. *)
Theorem resolved_is_directory (fs : FS) (d r : Path) :
  _get_directory fs d = Some r ->
  is_dir fs r = true /\ _get_directory fs r = Some r.
Proof.
  intros H. pose proof (get_directory_sound fs d r H) as Hr.
  split; [exact Hr|]. unfold _get_directory. now rewrite Hr.
Qed.

(** X2. The scan goes down to the root itself.  For an absolute target
    that is no directory and has no template at any position after the
    root, the last candidate stands [__TEMPLATE__] in place of the root: it
    is a relative path, so it names a directory under the working
    directory of the server, and that one is returned when it is there. *)
Theorem root_template_under_cwd (fs : FS) (d : Path) :
  wf d = true ->
  is_absolute d = true ->
  is_dir fs d = false ->
  (forall k, 0 < k < List.length d -> is_dir fs (replace_segment k d) = false) ->
  stat fs (cwd fs ++ TEMPLATE :: tl d) = Some Dir ->
  _get_directory fs d = Some (TEMPLATE :: tl d).
Proof.
  intros Hwf Habs Hd Hnone Hroot. unfold _get_directory. rewrite Hd.
  destruct d as [|h t]; [discriminate|].
  assert (is_dir fs (replace_segment 0 (h :: t)) = true) as H0.
  { cbn [replace_segment]. unfold is_dir, lookup, absolute.
    cbn [tl] in Hroot.
    change (is_absolute (TEMPLATE :: t)) with false. cbv iota.
    now rewrite Hroot. }
  pose proof (loop_scans_down fs (h :: t) (List.length (h :: t)) Hwf (le_n _))
    as H.
  destruct (_get_directory_loop fs (h :: t) (List.length (h :: t))) as [c|].
  - destruct H as (k & Hk & -> & Hc & _).
    destruct k as [|k]; [reflexivity|].
    rewrite (Hnone (S k)) in Hc by lia. discriminate.
  - rewrite (H 0) in H0 by (simpl; lia). discriminate.
Qed.

End ResolverMore.

(* ================================================================== *)
(** ** More on the dynamic dispatcher *)
(* ================================================================== *)

Module DispatchMore.
Import PyStr PyDict PurePath Chora Spec PathNotations.
Import PyStrFacts PurePathFacts ResolverFacts ResolverMore DispatchFacts.

Section WithPrograms.
Variable exec : FS -> Path -> Snapshot -> completed * (Path -> option node).
Variable snap : Snapshot.

Lemma get_handler_one_more (n : nat) :
  forall fs d res,
    get_handler exec n snap fs d = Some res ->
    get_handler exec (S n) snap fs d = Some res.
Proof.
  induction n as [|n IH]; intros fs d res; [discriminate|].
  cbn [get_handler]. destruct (_get_directory fs d) as [r|]; [|auto].
  destruct (exists_ fs (r // HANDLE)); [|auto].
  unfold _dynamic_handler.
  destruct (negb (access_x fs (absolute fs (r // HANDLE)))); [auto|].
  destruct (subprocess_run exec fs (absolute fs (absolute fs (r // HANDLE))) snap)
    as [fs1 [out|e]]; [|auto].
  apply IH.
Qed.

(** The depth bound does not shape the result: a dispatch that has ended
    within some depth gives the same within any greater depth. *)
Lemma get_handler_depth_irrelevant (n m : nat) (fs : FS) (d : Path)
  (res : FS * result Path) :
  n <= m ->
  get_handler exec n snap fs d = Some res ->
  get_handler exec m snap fs d = Some res.
Proof.
  induction 1 as [|m _ IH]; intros H; [exact H|].
  apply get_handler_one_more. now apply IH.
Qed.

(** X3. The handler [get_handler] returns is bound to a directory that is
    there and holds no HANDLE, in the file system the programs have left
    behind: a chain of HANDLE programs always ends at a static directory
    when it ends without an exception. *)
Theorem handler_is_static (fuel : nat) (fs fs' : FS) (d r : Path) :
  get_handler exec fuel snap fs d = Some (fs', Return r) ->
  is_dir fs' r = true /\ exists_ fs' (r // HANDLE) = false.
Proof.
  revert fs d. induction fuel as [|fuel IH]; intros fs d; [discriminate|].
  cbn [get_handler]. destruct (_get_directory fs d) as [r0|] eqn:Hres;
    [|discriminate].
  destruct (exists_ fs (r0 // HANDLE)) eqn:Hex.
  - unfold _dynamic_handler.
    destruct (negb (access_x fs (absolute fs (r0 // HANDLE)))); [discriminate|].
    destruct (subprocess_run exec fs
                (absolute fs (absolute fs (r0 // HANDLE))) snap)
      as [fs1 [out|e]]; [|discriminate].
    apply IH.
  - intros [= <- <-]. split; [|exact Hex].
    exact (get_directory_sound fs d r0 Hres).
Qed.

(** X5. A HANDLE that exits with zero and prints nothing, or only white
    space, or [.], and leaves the files alone, names its own directory:
    dispatch comes back to the same HANDLE and does not end within any
    depth. *)
Theorem silent_handler_never_ends (fs : FS) (r : Path) (stdout : str) :
  is_absolute r = true ->
  is_dir fs r = true ->
  exists_ fs (r ++ [HANDLE]) = true ->
  access_x fs (r ++ [HANDLE]) = true ->
  exec fs (r ++ [HANDLE]) snap = (Exited 0 stdout, stat fs) ->
  parse (strip stdout) = [] ->
  forall fuel, get_handler exec fuel snap fs r = None.
Proof.
  intros Habs Hdir Hex Hacc Hrun Hout.
  assert (absolute fs r = r) as Hr by (unfold absolute; now rewrite Habs).
  assert (hop exec snap fs r fs r) as Hhop.
  { apply hop_by with (r := r) (stdout := stdout).
    - unfold _get_directory. now rewrite Hdir.
    - exact Hex.
    - now rewrite Hr.
    - now rewrite Hr.
    - reflexivity.
    - rewrite Hout, Hr. cbn [is_absolute]. now rewrite app_nil_r. }
  induction fuel as [|fuel IH]; [reflexivity|].
  now rewrite (get_handler_hop exec snap _ _ _ _ fuel Hhop).
Qed.

(** X6. [get_handler] writes nothing: when no program changes what the
    paths name, the file system after the dispatch is the one before it,
    whatever the chain of handlers and however it ends. *)
Theorem dispatch_read_only (fuel : nat) (fs fs' : FS) (d : Path)
  (res : result Path) :
  (forall fs0 h, snd (exec fs0 h snap) = stat fs0) ->
  get_handler exec fuel snap fs d = Some (fs', res) ->
  fs' = fs.
Proof.
  intros Hexec. revert fs d.
  induction fuel as [|fuel IH]; intros fs d; [discriminate|].
  cbn [get_handler]. destruct (_get_directory fs d) as [r0|];
    [|now intros [= <- _]].
  destruct (exists_ fs (r0 // HANDLE)); [|now intros [= <- _]].
  unfold _dynamic_handler.
  destruct (negb (access_x fs (absolute fs (r0 // HANDLE))));
    [now intros [= <- _]|].
  unfold subprocess_run.
  pose proof (Hexec fs (absolute fs (absolute fs (r0 // HANDLE)))) as Hst.
  destruct (exec fs (absolute fs (absolute fs (r0 // HANDLE))) snap)
    as [proc stat'].
  cbn [snd] in Hst. subst stat'.
  assert (mkFS (cwd_segments fs) (stat fs) = fs) as -> by now destruct fs.
  destruct proc as [code out| |e]; [|now intros [= <- _]..].
  destruct (code =? 0)%Z; [apply IH|now intros [= <- _]].
Qed.

End WithPrograms.

End DispatchMore.

(* ================================================================== *)
(** ** More on the static handler *)
(* ================================================================== *)

Module StripFacts.
Import PyStr PyStrFacts.

Lemma in_rev (c : ascii) (s : str) : in_ c (rev s) = in_ c s.
Proof.
  induction s as [|x s IH]; [reflexivity|].
  cbn [rev]. rewrite in_app, IH, !in_cons. cbn [in_ existsb].
  rewrite orb_false_r. apply orb_comm.
Qed.

Lemma in_lstrip (p : ascii -> bool) (c : ascii) (s : str) :
  in_ c s = false -> in_ c (lstrip_by p s) = false.
Proof.
  induction s as [|x s IH]; [reflexivity|]. intros H. cbn [lstrip_by].
  destruct (p x); [|exact H]. rewrite in_cons in H.
  apply orb_false_iff in H as [_ H]. now apply IH.
Qed.

(** Trimming brings no character in. *)
Lemma in_strip_by (p : ascii -> bool) (c : ascii) (s : str) :
  in_ c s = false -> in_ c (strip_by p s) = false.
Proof.
  intros H. unfold strip_by, rstrip_by. rewrite in_rev.
  apply in_lstrip. rewrite in_rev. now apply in_lstrip.
Qed.

Lemma in_before (sep c : ascii) (s : str) :
  in_ c s = false -> in_ c (before sep s) = false.
Proof.
  induction s as [|x s IH]; [reflexivity|]. rewrite in_cons. intros H.
  apply orb_false_iff in H as [Hx Hs]. cbn [before].
  destruct (Ascii.eqb x sep); [reflexivity|].
  now rewrite in_cons, Hx, (IH Hs).
Qed.

Lemma before_sep_free (sep : ascii) (s : str) : in_ sep (before sep s) = false.
Proof.
  induction s as [|x s IH]; [reflexivity|]. cbn [before].
  destruct (Ascii.eqb x sep) eqn:E; [reflexivity|].
  now rewrite in_cons, E, IH.
Qed.

Lemma in_after (sep c : ascii) (s : str) :
  in_ c s = false -> in_ c (Spec.after sep s) = false.
Proof.
  induction s as [|x s IH]; [reflexivity|]. rewrite in_cons. intros H.
  apply orb_false_iff in H as [Hx Hs]. cbn [Spec.after].
  destruct (Ascii.eqb x sep); [exact Hs|now apply IH].
Qed.

(** The pieces of a split hold no character the text does not hold. *)
Lemma in_split_max (sep c : ascii) (n : nat) (s : str) :
  in_ c s = false ->
  forallb (fun x => negb (in_ c x)) (split_max sep n s) = true.
Proof.
  revert s. induction n as [|n IH]; intros s H; cbn [split_max forallb].
  - now rewrite H.
  - destruct (cut sep s) as [[a b]|] eqn:E; cbn [forallb].
    + destruct (in_ sep s) eqn:Hs.
      * destruct (cut_present _ _ Hs) as (a' & b' & Hc & Hab & _).
        rewrite E in Hc. injection Hc as <- <-. subst s.
        rewrite in_app, in_cons in H.
        apply orb_false_iff in H as [Ha H].
        apply orb_false_iff in H as [_ Hb].
        rewrite Ha. cbn [negb andb]. now apply IH.
      * rewrite (cut_absent _ _ Hs) in E. discriminate.
    + now rewrite H.
Qed.

(** What is left of a text once its front is trimmed: a front of
    characters that go, and the rest. *)
Lemma lstrip_splits (p : ascii -> bool) (s : str) :
  exists a, s = a ++ lstrip_by p s /\ forallb p a = true.
Proof.
  induction s as [|x s (a & Ha & Hp)]; [exists []; auto|].
  cbn [lstrip_by]. destruct (p x) eqn:E.
  - exists (x :: a). cbn [app forallb]. rewrite E, Hp. split; [|reflexivity].
    now rewrite <- Ha.
  - exists []. auto.
Qed.

Definition starts_clean (p : ascii -> bool) (s : str) : Prop :=
  match s with
  | [] => True
  | c :: _ => p c = false
  end.

Lemma lstrip_starts_clean (p : ascii -> bool) (s : str) :
  starts_clean p (lstrip_by p s).
Proof.
  induction s as [|x s IH]; [exact I|]. cbn [lstrip_by].
  destruct (p x) eqn:E; [exact IH|exact E].
Qed.

Lemma lstrip_clean (p : ascii -> bool) (s : str) :
  starts_clean p s -> lstrip_by p s = s.
Proof. destruct s as [|x s]; [reflexivity|]. cbn. now intros ->. Qed.

Lemma rstrip_starts_clean (p : ascii -> bool) (s : str) :
  starts_clean p s -> starts_clean p (rstrip_by p s).
Proof.
  intros H. unfold rstrip_by.
  destruct (lstrip_splits p (rev s)) as (a & Ha & _).
  apply (f_equal (@rev ascii)) in Ha. rewrite rev_involutive, rev_app_distr in Ha.
  destruct (rev (lstrip_by p (rev s))) as [|x t]; [exact I|].
  rewrite Ha in H. exact H.
Qed.

(** Trimming twice is trimming once. *)
Lemma strip_by_idem (p : ascii -> bool) (s : str) :
  strip_by p (strip_by p s) = strip_by p s.
Proof.
  unfold strip_by at 1.
  assert (starts_clean p (strip_by p s)) as H1.
  { apply rstrip_starts_clean, lstrip_starts_clean. }
  rewrite (lstrip_clean p _ H1). unfold rstrip_by.
  assert (starts_clean p (rev (strip_by p s))) as H2.
  { unfold strip_by, rstrip_by. rewrite rev_involutive.
    apply lstrip_starts_clean. }
  rewrite (lstrip_clean p _ H2). apply rev_involutive.
Qed.

(** *** Trimming text: white space of one, two and three bytes *)

Lemma by_length (P : str -> Prop) :
  (forall s, (forall t, List.length t < List.length s -> P t) -> P s) ->
  forall s, P s.
Proof.
  intros step.
  assert (forall n s, List.length s < n -> P s) as H.
  { induction n as [|n IH]; intros s Hs; [lia|].
    apply step. intros t Ht. apply IH. lia. }
  intros s. exact (H (S (List.length s)) s (Nat.lt_succ_diag_r _)).
Qed.

Section Tokens.
Variable p1 : ascii -> bool.
Variable p2 : ascii -> ascii -> bool.
Variable p3 : ascii -> ascii -> ascii -> bool.

Local Abbreviation drop := (lstrip_with p1 p2 p3).

(** What is trimmed is a front piece. *)
Lemma lstrip_with_splits (s : str) : exists a, s = a ++ drop s.
Proof.
  induction s as [s IH] using by_length.
  destruct s as [|a r1]; [exists []; reflexivity|]. cbn [lstrip_with].
  destruct (p1 a).
  { destruct (IH r1) as [x Hx]; [simpl; lia|].
    exists (a :: x). cbn [app]. now rewrite <- Hx. }
  destruct r1 as [|b r2]; [exists []; reflexivity|].
  destruct (p2 a b).
  { destruct (IH r2) as [x Hx]; [simpl; lia|].
    exists (a :: b :: x). cbn [app]. now rewrite <- Hx. }
  destruct r2 as [|c r3]; [exists []; reflexivity|].
  destruct (p3 a b c); [|exists []; reflexivity].
  destruct (IH r3) as [x Hx]; [simpl; lia|].
  exists (a :: b :: c :: x). cbn [app]. now rewrite <- Hx.
Qed.

Lemma in_lstrip_with (c : ascii) (s : str) :
  in_ c s = false -> in_ c (drop s) = false.
Proof.
  intros H. destruct (lstrip_with_splits s) as [a Ha].
  rewrite Ha, in_app in H. now apply orb_false_iff in H as [_ H].
Qed.

(** A text that starts with no white space, of no length. *)
Definition starts_clean_with (s : str) : Prop :=
  match s with
  | [] => True
  | [a] => p1 a = false
  | [a; b] => p1 a = false /\ p2 a b = false
  | a :: b :: c :: _ => p1 a = false /\ p2 a b = false /\ p3 a b c = false
  end.

Lemma lstrip_with_starts_clean (s : str) : starts_clean_with (drop s).
Proof.
  induction s as [s IH] using by_length.
  destruct s as [|a r1]; [exact I|]. cbn [lstrip_with].
  destruct (p1 a) eqn:E1; [apply IH; simpl; lia|].
  destruct r1 as [|b r2]; [exact E1|].
  destruct (p2 a b) eqn:E2; [apply IH; simpl; lia|].
  destruct r2 as [|c r3]; [split; assumption|].
  destruct (p3 a b c) eqn:E3; [apply IH; simpl; lia|].
  repeat split; assumption.
Qed.

Lemma lstrip_with_clean (s : str) : starts_clean_with s -> drop s = s.
Proof.
  destruct s as [|a [|b [|c r3]]]; cbn [starts_clean_with lstrip_with].
  - reflexivity.
  - now intros ->.
  - now intros [-> ->].
  - now intros (-> & -> & ->).
Qed.

Lemma starts_clean_prefix (x y : str) :
  starts_clean_with (x ++ y) -> starts_clean_with x.
Proof.
  destruct x as [|a [|b [|c x]]]; cbn [app starts_clean_with].
  - intros _. exact I.
  - destruct y as [|b [|c y]]; [auto|tauto|tauto].
  - destruct y as [|c y]; [auto|tauto].
  - auto.
Qed.

(** A character that is white space neither on its own nor as a part of a
    longer one stops the trimming. *)
Definition apart (c : ascii) : Prop :=
  (forall x, p2 c x = false) /\ (forall x, p2 x c = false) /\
  (forall x y, p3 c x y = false) /\ (forall x y, p3 x c y = false) /\
  (forall x y, p3 x y c = false).

Lemma lstrip_with_app_stop (u x : str) (c : ascii) :
  p1 c = false -> apart c -> drop (u ++ c :: x) = drop u ++ c :: x.
Proof.
  intros H1 (H2a & H2b & H3a & H3b & H3c).
  induction u as [u IH] using by_length.
  destruct u as [|a r1].
  - cbn [app lstrip_with]. rewrite H1. destruct x as [|b x]; [reflexivity|].
    rewrite H2a. destruct x as [|y x]; [reflexivity|]. now rewrite H3a.
  - cbn [app lstrip_with]. destruct (p1 a); [apply IH; simpl; lia|].
    destruct r1 as [|b r2].
    + cbn [app]. rewrite H2b. destruct x as [|y x]; [reflexivity|].
      now rewrite H3b.
    + cbn [app]. destruct (p2 a b); [apply IH; simpl; lia|].
      destruct r2 as [|c' r3].
      * cbn [app]. now rewrite H3c.
      * cbn [app]. destruct (p3 a b c'); [apply IH; simpl; lia|reflexivity].
Qed.

(** A clean start stays one when such a character follows. *)
Lemma starts_clean_app (y x : str) (c : ascii) :
  starts_clean_with y -> y <> [] -> apart c -> starts_clean_with (y ++ c :: x).
Proof.
  intros Hy Hne (H2a & H2b & H3a & H3b & H3c).
  destruct y as [|a [|b [|c' y]]]; [congruence|..];
    cbn [app starts_clean_with] in *.
  - destruct x as [|z x]; [split; auto|]. repeat split; auto.
  - destruct Hy. repeat split; auto.
  - exact Hy.
Qed.

End Tokens.

Lemma strip_is_prefix (s : str) : exists a, lstrip s = strip s ++ a.
Proof.
  unfold strip, rstrip.
  destruct (lstrip_with_splits isspace (fun b a => space2 a b)
              (fun c b a => space3 a b c) (rev (lstrip s))) as [a Ha].
  exists (rev a). rewrite <- rev_app_distr, <- Ha. now rewrite rev_involutive.
Qed.

(** Trimming a text brings no character in. *)
Lemma in_strip (c : ascii) (s : str) :
  in_ c s = false -> in_ c (strip s) = false.
Proof.
  intros H. apply (in_lstrip_with isspace space2 space3) in H.
  fold lstrip in H. destruct (strip_is_prefix s) as [a Ha].
  rewrite Ha, in_app in H. now apply orb_false_iff in H as [H _].
Qed.

(** A trimmed text starts clean, and so does it read from its end. *)
Lemma strip_starts_clean (s : str) :
  starts_clean_with isspace space2 space3 (strip s).
Proof.
  destruct (strip_is_prefix s) as [a Ha].
  apply starts_clean_prefix with (y := a). rewrite <- Ha.
  apply lstrip_with_starts_clean.
Qed.

Lemma strip_ends_clean (s : str) :
  starts_clean_with isspace (fun b a => space2 a b)
                    (fun c b a => space3 a b c) (rev (strip s)).
Proof.
  unfold strip, rstrip. rewrite rev_involutive.
  apply lstrip_with_starts_clean.
Qed.

(** Trimming twice is trimming once. *)
Lemma strip_idem (s : str) : strip (strip s) = strip s.
Proof.
  assert (lstrip (strip s) = strip s) as H1.
  { apply lstrip_with_clean, strip_starts_clean. }
  unfold strip at 1. rewrite H1. unfold rstrip at 1.
  rewrite lstrip_with_clean; [apply rev_involutive|].
  apply strip_ends_clean.
Qed.

End StripFacts.

Module StaticMore.
Import PyStr PyDict PurePath Chora Spec PathNotations.
Import PyStrFacts PurePathFacts DictFacts StaticFacts StripFacts.

Lemma no_colon_lines (text : str) :
  in_ ":" text = false -> colon_lines text = [].
Proof.
  intros H. unfold colon_lines, split.
  pose proof (in_split_max "010" ":" (List.length (strip text)) (strip text)
                (in_strip ":" text H)) as Hall.
  induction (split_max "010" (List.length (strip text)) (strip text))
    as [|l ls IH]; [reflexivity|].
  cbn [forallb] in Hall. apply andb_true_iff in Hall as [Hl Hls].
  cbn [filter]. apply negb_true_iff in Hl. rewrite Hl. now apply IH.
Qed.

(** X9. A HEADERS text without any colon, the empty one among them, gives
    the empty mapping. *)
Theorem headers_without_colon (fs : FS) (d : Path) (n : Z)
  (data text : str) (hdrs : dict) :
  _static_handler fs d = Return (n, data, hdrs) ->
  read_text fs (d // HEADERS_) = Return text ->
  in_ ":" text = false ->
  hdrs = [].
Proof.
  intros H Ht Hc. destruct (static_handler_headers _ _ _ _ _ H) as (t & Ht' & ->).
  rewrite Ht in Ht'. injection Ht' as <-.
  unfold headers_of_text, entries. now rewrite (no_colon_lines text Hc).
Qed.

Lemma in_setitem (d : dict) (k v : str) (e : str * str) :
  In e (setitem d k v) -> In e d \/ e = (k, v).
Proof.
  induction d as [|[a b] d IH]; cbn [setitem].
  - intros [<-|[]]. auto.
  - destruct (str_eqb a k) eqn:E.
    + apply str_eqb_eq in E. subst a. intros [<-|H]; [auto|].
      left. now right.
    + intros [<-|H]; [left; now left|].
      destruct (IH H) as [H'|H']; [left; now right|auto].
Qed.

Lemma in_apply_entries (es : list (str * str)) (d : dict) (e : str * str) :
  In e (apply_entries d es) -> In e d \/ In e es.
Proof.
  unfold apply_entries. revert d. induction es as [|[a b] es IH]; intros d.
  - auto.
  - cbn [fold_left fst snd]. intros H. destruct (IH _ H) as [H'|H'].
    + destruct (in_setitem _ _ _ _ H') as [H''| ->]; [auto|].
      right. now left.
    + right. now right.
Qed.

Lemma colon_line_sep_free (text line : str) :
  In line (colon_lines text) -> in_ "010" line = false.
Proof.
  unfold colon_lines. rewrite filter_In. intros [H _].
  pose proof (split_sep_free "010" (strip text)) as Hall.
  rewrite forallb_forall in Hall. apply negb_true_iff. now apply Hall.
Qed.

(** X10. In the mapping of a response no header name and no value has
    white space at either end or holds a newline, and no name holds a
    colon (a value may: only the first colon of a line splits it). *)
Theorem headers_are_trimmed (fs : FS) (d : Path) (n : Z)
  (data : str) (hdrs : dict) (k v : str) :
  _static_handler fs d = Return (n, data, hdrs) ->
  In (k, v) hdrs ->
  strip k = k /\ strip v = v /\
  in_ ":" k = false /\ in_ "010" k = false /\ in_ "010" v = false.
Proof.
  intros H Hin. destruct (static_handler_headers _ _ _ _ _ H) as (t & _ & ->).
  unfold headers_of_text in Hin.
  destruct (in_apply_entries _ _ _ Hin) as [[]|He].
  unfold entries in He. apply in_map_iff in He as (line & Hline & Hl).
  unfold entry_of in Hline. injection Hline as <- <-.
  pose proof (colon_line_sep_free t line Hl) as Hnl.
  repeat split.
  - apply strip_idem.
  - apply strip_idem.
  - apply in_strip, before_sep_free.
  - now apply in_strip, in_before.
  - now apply in_strip, in_after.
Qed.

End StaticMore.

(* ================================================================== *)
(** ** More on the request: snapshot, route, method *)
(* ================================================================== *)

Module RequestMore.
Import PyStr PyDict PurePath UrlParse Chora Spec Attributes PathNotations.
Import PyStrFacts PurePathFacts StripFacts.

(** *** [_cache_request] *)

Definition names_content_length (kv : str * str) : bool :=
  str_eqb (lower (fst kv)) (lit "content-length").

Lemma no_content_length (hs : list (str * str)) :
  forallb (fun kv => negb (names_content_length kv)) hs = true ->
  headers_get hs (lit "Content-Length") = None.
Proof.
  induction hs as [|[k v] hs IH]; [reflexivity|]. cbn [forallb headers_get].
  intros H. apply andb_true_iff in H as [Hk Hs].
  apply negb_true_iff in Hk. unfold names_content_length in Hk.
  cbn [fst] in Hk. change (lower (lit "Content-Length"))
    with (lit "content-length"). rewrite Hk. now apply IH.
Qed.

Lemma rfile_read_prefix (stream received : str) (n : Z) :
  rfile_read stream n = Return received ->
  exists rest, stream = received ++ rest.
Proof.
  unfold rfile_read.
  destruct ((n <? - PY_SSIZE_T_MAX - 1) || (PY_SSIZE_T_MAX <? n))%Z;
    [discriminate|].
  destruct (n <? -1)%Z; [discriminate|].
  destruct (n =? -1)%Z.
  - intros [= <-]. exists []. now rewrite app_nil_r.
  - destruct (bytes_max <? n)%Z; [discriminate|].
    intros [= <-]. exists (skipn (Z.to_nat n) stream).
    now rewrite firstn_skipn.
Qed.

Lemma rfile_read_length (stream received : str) (n : Z) :
  rfile_read stream n = Return received -> (0 <= n)%Z ->
  List.length received = Nat.min (Z.to_nat n) (List.length stream).
Proof.
  unfold rfile_read. intros H Hn.
  destruct ((n <? - PY_SSIZE_T_MAX - 1) || (PY_SSIZE_T_MAX <? n))%Z;
    [discriminate|].
  destruct (n <? -1)%Z; [discriminate|].
  destruct (Z.eqb_spec n (-1)) as [Hn'|_]; [lia|].
  destruct (bytes_max <? n)%Z; [discriminate|].
  injection H as <-. apply length_firstn.
Qed.

Lemma decode_same (b text : str) : decode b = Return text -> text = b.
Proof.
  unfold decode. destruct (utf8_valid b); [|discriminate]. now intros [= <-].
Qed.

(** X11. The body artifact of the scratch directory is a front piece of
    the bytes the request brings: nothing when no header is named
    Content-Length in any case of letters, and as many bytes as the first
    such header declares, or as there are, when it declares a number that
    is not negative. *)
Theorem cached_body_bounded (req : Request) (snap : Snapshot) :
  _cache_request req = Return snap ->
  (exists rest, rfile req = DATA snap ++ rest) /\
  (forallb (fun kv => negb (names_content_length kv)) (headers req) = true ->
   DATA snap = []) /\
  (forall v n,
      headers_get (headers req) (lit "Content-Length") = Some v ->
      int_ v = Some n -> (0 <= n)%Z ->
      List.length (DATA snap)
      = Nat.min (Z.to_nat n) (List.length (rfile req))).
Proof.
  unfold _cache_request.
  destruct (headers_get (headers req) (lit "Content-Length")) as [v|] eqn:Hget.
  - unfold to_int. destruct (int_ v) as [n|] eqn:Hn; cbn [bind]; [|discriminate].
    destruct (rfile_read (rfile req) n) as [received|] eqn:Hread; cbn [bind];
      [|discriminate].
    destruct (decode received) as [body|] eqn:Hbody; cbn [bind];
      [|discriminate].
    apply decode_same in Hbody. subst body.
    intros [= <-]. cbn [DATA].
    split; [exact (rfile_read_prefix _ _ _ Hread)|]. split.
    + intros Hno. rewrite (no_content_length _ Hno) in Hget. discriminate.
    + intros v' n' [= <-] Hn' Hpos. rewrite Hn in Hn'. injection Hn' as <-.
      exact (rfile_read_length _ _ _ Hread Hpos).
  - cbn [bind].
    destruct (rfile_read (rfile req) 0) as [received|] eqn:Hread; cbn [bind];
      [|discriminate].
    destruct (decode received) as [body|] eqn:Hbody; cbn [bind];
      [|discriminate].
    apply decode_same in Hbody. subst body.
    intros [= <-]. cbn [DATA].
    split; [exact (rfile_read_prefix _ _ _ Hread)|].
    split; [|discriminate]. intros _.
    pose proof (rfile_read_length _ _ _ Hread (Z.le_refl 0)) as Hlen.
    cbn in Hlen. now apply length_zero_iff_nil.
Qed.

(** X12. A request whose first Content-Length header is no integer is not
    answered, whatever its route: [ValueError] leaves [_handle_request]
    before any directory is resolved or any program run, at any depth. *)
Theorem malformed_content_length_uncaught
  (exec : FS -> Path -> Snapshot -> completed * (Path -> option node))
  (fuel : nat) (root_dir : Path) (fs : FS) (req : Request) (method v : str) :
  headers_get (headers req) (lit "Content-Length") = Some v ->
  int_ v = None ->
  _cache_request req = Raise ValueError /\
  _handle_request exec fuel root_dir fs req method
  = Some (fs, Uncaught ValueError).
Proof.
  intros Hget Hn.
  assert (_cache_request req = Raise ValueError) as H.
  { unfold _cache_request, to_int. now rewrite Hget, Hn. }
  split; [exact H|]. unfold _handle_request. rewrite H.
  now destruct (urlsplit_raises (path req)).
Qed.

Lemma cut_line (sep : ascii) (l rest : str) :
  in_ sep l = false -> cut sep (l ++ sep :: rest) = Some (l, rest).
Proof.
  induction l as [|x l IH]; cbn [cut app].
  - now rewrite Ascii.eqb_refl.
  - rewrite in_cons. intros H. apply orb_false_iff in H as [Hx Hl].
    now rewrite Hx, (IH Hl).
Qed.

(** Any bound that reaches the length of the text splits alike. *)
Lemma split_max_enough (sep : ascii) (n m : nat) (s : str) :
  List.length s <= n -> List.length s <= m ->
  split_max sep n s = split_max sep m s.
Proof.
  revert m s. induction n as [|n IH]; intros m s Hn Hm.
  - destruct s; [|simpl in Hn; lia]. destruct m; reflexivity.
  - destruct m as [|m].
    + destruct s; [reflexivity|simpl in Hm; lia].
    + cbn [split_max]. destruct (cut sep s) as [[a b]|] eqn:E; [|reflexivity].
      destruct (cut_parts _ _ _ _ E) as [_ Hb]. f_equal. apply IH; lia.
Qed.

Lemma split_line (sep : ascii) (l rest : str) :
  in_ sep l = false -> split sep (l ++ sep :: rest) = l :: split sep rest.
Proof.
  intros H. unfold split. rewrite length_app. cbn [List.length].
  rewrite Nat.add_succ_r. cbn [split_max]. rewrite (cut_line sep l rest H).
  f_equal. apply split_max_enough; lia.
Qed.

(** X13. The HEADERS artifact of the scratch directory splits on newlines
    into one line [name: value] for each header of the request, in the
    order received, and an empty piece after the last newline, when no
    name and no value holds a newline. *)
Theorem cached_headers_lines (req : Request) (snap : Snapshot) :
  _cache_request req = Return snap ->
  forallb (fun kv => negb (in_ "010" (fst kv)) && negb (in_ "010" (snd kv)))
          (headers req) = true ->
  split "010" (HEADERS snap)
  = map (fun kv => fst kv ++ lit ": " ++ snd kv) (headers req) ++ [[]].
Proof.
  unfold _cache_request.
  destruct (match headers_get (headers req) (lit "Content-Length") with
            | Some v => to_int v
            | None => Return 0%Z
            end) as [n|]; cbn [bind]; [|discriminate].
  destruct (rfile_read (rfile req) n) as [received|]; cbn [bind];
    [|discriminate].
  destruct (decode received) as [body|]; cbn [bind]; [|discriminate].
  intros [= <-]. cbn [HEADERS]. clear n received body.
  induction (headers req) as [|[k v] hs IH]; [reflexivity|].
  cbn [forallb map List.concat fst snd app]. intros H.
  apply andb_true_iff in H as [Hkv Hs]. apply andb_true_iff in Hkv as [Hk Hv].
  apply negb_true_iff in Hk. apply negb_true_iff in Hv.
  unfold header_text at 1. cbn [fst snd].
  replace ((k ++ lit ": " ++ v ++ ["010"]) ++ List.concat (map header_text hs))
    with ((k ++ lit ": " ++ v) ++ "010" :: List.concat (map header_text hs))
    by (now rewrite <- !app_assoc).
  rewrite split_line; [now rewrite (IH Hs)|].
  now rewrite !in_app, Hk, Hv.
Qed.

(** *** The route *)

Lemma segments_relative (l : Path) :
  forallb seg_ok l = true -> is_absolute l = false.
Proof.
  destruct l as [|h t]; [reflexivity|]. cbn [forallb is_absolute].
  intros H. apply andb_true_iff in H as [Hh _]. now apply seg_ok_not_root.
Qed.

Lemma parse_relative (s : str) :
  is_root s = false ->
  parse s = filter keeps (split "/" s) /\
  forallb seg_ok (parse s) = true.
Proof.
  intros H. unfold parse, splitroot. rewrite H. cbn [negb].
  split; [reflexivity|]. apply kept_segments_ok, split_sep_free.
Qed.

Lemma strip_slashes_no_root (s : str) : is_root (strip_chars ["/"] s) = false.
Proof.
  unfold strip_chars.
  pose proof (rstrip_starts_clean (fun c => in_ c ["/"]) _
                (lstrip_starts_clean (fun c => in_ c ["/"]) s)) as H.
  unfold strip_by. destruct (rstrip_by _ _) as [|c t]; [reflexivity|].
  cbn [starts_clean] in H. cbn [is_root].
  unfold in_ in H. cbn [existsb] in H. rewrite orb_false_r in H.
  now rewrite Ascii.eqb_sym.
Qed.

Lemma method_dir_parts (root_dir : Path) (target method : str) :
  seg_ok method = true ->
  method_dir root_dir target method
  = root_dir
      ++ filter keeps (split "/" (strip_chars ["/"] (urlparse_path target)))
      ++ [method].
Proof.
  intros Hm. unfold method_dir.
  destruct (parse_relative _ (strip_slashes_no_root (urlparse_path target)))
    as [Hparse Hsegs].
  rewrite (truediv_segment _ method Hm). unfold truediv, joinpath.
  rewrite (segments_relative _ Hsegs), Hparse. now rewrite app_assoc.
Qed.

(** X14. The route target is the root directory, then the segments of the
    request path, then the method: the leading slash of the path never
    takes the place of the root directory, empty segments and [.] go, and
    [..] stays as a segment. *)
Theorem route_under_root (root_dir : Path) (target method : str) :
  seg_ok method = true ->
  method_dir root_dir target method
  = root_dir
      ++ filter keeps (split "/" (strip_chars ["/"] (urlparse_path target)))
      ++ [method] /\
  forallb seg_ok
    (filter keeps (split "/" (strip_chars ["/"] (urlparse_path target))))
  = true.
Proof.
  intros Hm. split; [now apply method_dir_parts|].
  apply kept_segments_ok, split_sep_free.
Qed.

Lemma lstrip_all (p : ascii -> bool) (s : str) :
  forallb p s = true -> lstrip_by p s = [].
Proof.
  induction s as [|x s IH]; [reflexivity|]. cbn [forallb lstrip_by].
  intros H. apply andb_true_iff in H as [Hx Hs]. now rewrite Hx, IH.
Qed.

(** X15. A request whose path is empty or made of slashes only has the
    route [root_dir / method]. *)
Theorem root_path_route (root_dir : Path) (target method : str) :
  seg_ok method = true ->
  forallb (Ascii.eqb "/") (urlparse_path target) = true ->
  method_dir root_dir target method = root_dir ++ [method].
Proof.
  intros Hm Hall. rewrite (method_dir_parts root_dir target method Hm).
  unfold strip_chars, strip_by.
  rewrite (lstrip_all _ (urlparse_path target)).
  - reflexivity.
  - rewrite forallb_forall in *. intros c Hc. specialize (Hall c Hc).
    unfold in_. cbn [existsb]. rewrite Ascii.eqb_sym, Hall. reflexivity.
Qed.

(** X16. Whatever the root directory given to the handler, the target of
    the request and its method, the route target is a well-formed parts
    tuple: the root, if any, in front, and segments without separator,
    none empty, none [.]. *)
Theorem route_well_formed (root_dir target method : str) :
  wf (method_dir (__init__ root_dir) target method) = true.
Proof.
  unfold method_dir, __init__.
  do 2 apply truediv_wf. rewrite DispatchFacts.Path_single. apply parse_wf.
Qed.

(** *** [__getattr__] *)

(** X17. The attribute [do_m] is [_handle_request] bound to the method
    [m], for every [m], known to HTTP or not; no other attribute name is
    answered. *)
Theorem getattr_binds_method (item m : str) :
  __getattr__ item = Some m <-> item = lit "do_" ++ m.
Proof.
  unfold __getattr__, startswith. split.
  - destruct (str_eqb (firstn (List.length (lit "do_")) item) (lit "do_"))
      eqn:E; [|discriminate].
    apply str_eqb_eq in E. intros [= <-].
    rewrite <- E at 1. change (List.length (lit "do_")) with 3.
    rewrite <- (firstn_skipn 3 item) at 1. reflexivity.
  - intros ->. reflexivity.
Qed.

End RequestMore.

(* ================================================================== *)
(** ** Writing HEADERS and reading it back *)
(* ================================================================== *)

Module HeaderRoundTrip.
Import PyStr PyDict PurePath Chora Spec HeaderText PathNotations.
Import PyStrFacts DictFacts StaticFacts StripFacts UrlFacts RequestMore.

(** *** ASCII characters and white space of several bytes *)

Lemma between_ascii (lo hi : N) (c : ascii) :
  (128 <= lo)%N -> (code c < 128)%N -> between lo hi c = false.
Proof.
  intros Hlo Hc. unfold between.
  destruct (N.leb_spec lo (code c)); [lia|reflexivity].
Qed.

Lemma second3_ascii (a c : ascii) : (code c < 128)%N -> second3 a c = false.
Proof.
  intros Hc. unfold second3, continuation.
  destruct (code a =? 224)%N; [apply between_ascii; [lia|exact Hc]|].
  destruct (code a =? 237)%N; apply between_ascii; (lia || exact Hc).
Qed.

Lemma ascii_not_space2 (a b : ascii) :
  (code a < 128)%N \/ (code b < 128)%N -> space2 a b = false.
Proof.
  unfold space2, continuation. intros [H|H].
  - now rewrite (between_ascii 194 223 a) by (lia || exact H).
  - rewrite (between_ascii 128 191 b) by (lia || exact H).
    now rewrite andb_false_r.
Qed.

Lemma ascii_not_space3 (a b c : ascii) :
  (code a < 128)%N \/ (code b < 128)%N \/ (code c < 128)%N ->
  space3 a b c = false.
Proof.
  unfold space3, continuation. intros [H|[H|H]].
  - now rewrite (between_ascii 224 239 a) by (lia || exact H).
  - rewrite (second3_ascii a b H). now rewrite andb_false_r.
  - rewrite (between_ascii 128 191 c) by (lia || exact H).
    now rewrite !andb_false_r.
Qed.

(** An ASCII character is no part of a longer white space, from the front
    and from the end. *)
Lemma ascii_apart (c : ascii) : (code c < 128)%N -> apart space2 space3 c.
Proof.
  intros H. repeat split; intros;
    (apply ascii_not_space2 || apply ascii_not_space3); auto.
Qed.

Lemma ascii_apart_rev (c : ascii) :
  (code c < 128)%N ->
  apart (fun b a => space2 a b) (fun c b a => space3 a b c) c.
Proof.
  intros H. repeat split; intros;
    (apply ascii_not_space2 || apply ascii_not_space3); auto.
Qed.

Lemma rstrip_app_stop (a b : str) (c : ascii) :
  isspace c = false -> (code c < 128)%N ->
  rstrip (a ++ c :: b) = a ++ c :: rstrip b.
Proof.
  intros Hc Hascii. unfold rstrip. rewrite rev_app_distr. cbn [rev].
  rewrite <- app_assoc. cbn [app].
  rewrite (lstrip_with_app_stop _ _ _ (rev b) (rev a) c Hc
             (ascii_apart_rev c Hascii)).
  rewrite rev_app_distr. cbn [rev]. rewrite rev_involutive, <- app_assoc.
  reflexivity.
Qed.

(** A tail that holds a character that stays is trimmed on its own. *)
Lemma rstrip_app_keep (a b : str) (c : ascii) :
  isspace c = false -> (code c < 128)%N -> in_ c b = true ->
  rstrip (a ++ b) = a ++ rstrip b.
Proof.
  intros Hc Hascii Hin.
  destruct (cut_present _ _ Hin) as (b1 & b2 & _ & -> & _).
  rewrite app_assoc, !(rstrip_app_stop _ b2 c Hc Hascii).
  now rewrite app_assoc.
Qed.

(** The blank after the colon and a trimmed value: trimming gives the
    value, also after the end has been trimmed. *)
Lemma value_back (v : str) :
  strip v = v ->
  strip (" " :: v) = v /\ strip (rstrip (" " :: v)) = v.
Proof.
  intros Hv.
  assert (strip (" " :: v) = v) as H1 by exact Hv.
  split; [exact H1|].
  destruct v as [|x v]; [reflexivity|].
  assert (rstrip (" " :: x :: v) = " " :: x :: v) as ->; [|exact H1].
  unfold rstrip. change (rev (" " :: x :: v)) with (rev (x :: v) ++ [" "]).
  rewrite lstrip_with_clean.
  - rewrite rev_app_distr. now rewrite rev_involutive.
  - apply starts_clean_app.
    + rewrite <- Hv. apply strip_ends_clean.
    + cbn [rev]. now destruct (rev v).
    + now apply ascii_apart_rev.
Qed.

Lemma before_colon (k r : str) :
  in_ ":" k = false -> before ":" (k ++ ":" :: r) = k.
Proof.
  intros H. rewrite (before_app_absent _ _ _ H). cbn [before].
  change (Ascii.eqb ":" ":") with true. apply app_nil_r.
Qed.

Lemma after_colon (k r : str) :
  in_ ":" k = false -> after ":" (k ++ ":" :: r) = r.
Proof.
  induction k as [|x k IH]; [reflexivity|]. rewrite in_cons. intros H.
  apply orb_false_iff in H as [Hx Hk]. cbn [after app]. rewrite Hx.
  now apply IH.
Qed.

Lemma entry_ok_parts (kv : str * str) :
  entry_ok kv = true ->
  strip (fst kv) = fst kv /\ strip (snd kv) = snd kv /\
  in_ ":" (fst kv) = false /\
  (in_ "010" (fst kv) = false /\ in_ "013" (fst kv) = false) /\
  (in_ "010" (snd kv) = false /\ in_ "013" (snd kv) = false).
Proof.
  unfold entry_ok, one_line. intros H.
  apply andb_true_iff in H as [H H5]. apply andb_true_iff in H as [H H4].
  apply andb_true_iff in H as [H H3]. apply andb_true_iff in H as [H1 H2].
  apply str_eqb_eq in H1. apply str_eqb_eq in H2.
  apply negb_true_iff in H3.
  apply andb_true_iff in H4 as [H4 H4']. apply andb_true_iff in H5 as [H5 H5'].
  apply negb_true_iff in H4. apply negb_true_iff in H4'.
  apply negb_true_iff in H5. apply negb_true_iff in H5'.
  repeat split; assumption.
Qed.

Lemma line_has_colon (kv : str * str) : in_ ":" (line_of kv) = true.
Proof.
  unfold line_of. rewrite in_app. change (lit ": ") with [":"; " "].
  cbn [app]. rewrite in_cons. change (Ascii.eqb ":" ":") with true.
  now rewrite orb_true_r.
Qed.

Lemma line_one_line (kv : str * str) :
  entry_ok kv = true ->
  in_ "010" (line_of kv) = false /\ in_ "013" (line_of kv) = false.
Proof.
  intros H.
  destruct (entry_ok_parts kv H) as (_ & _ & _ & [Hk Hk'] & [Hv Hv']).
  unfold line_of. now rewrite !in_app, Hk, Hk', Hv, Hv'.
Qed.

Lemma entry_of_line (kv : str * str) :
  entry_ok kv = true ->
  entry_of (line_of kv) = kv /\
  entry_of (rstrip (line_of kv)) = kv /\
  in_ ":" (rstrip (line_of kv)) = true.
Proof.
  intros H. destruct (entry_ok_parts kv H) as (Hk & Hv & Hc & _ & _).
  destruct kv as [k v]. cbn [fst snd] in *. unfold line_of. cbn [fst snd].
  change (lit ": " ++ v) with (":" :: " " :: v).
  destruct (value_back v Hv) as [Hv1 Hv2].
  rewrite (rstrip_app_stop k (" " :: v) ":" eq_refl eq_refl).
  unfold entry_of. rewrite !(before_colon k _ Hc), !(after_colon k _ Hc).
  rewrite Hk, Hv1, Hv2. repeat split.
  rewrite in_app, in_cons. change (Ascii.eqb ":" ":") with true.
  now rewrite orb_true_r.
Qed.

Lemma join_has_colon (e : str * str) (m : dict) :
  in_ ":" (join "010" (map line_of (e :: m))) = true.
Proof.
  cbn [map join]. destruct (map line_of m); [apply line_has_colon|].
  now rewrite in_app, line_has_colon.
Qed.

(** The entries of the rendered text, once its end is trimmed, are the
    entries rendered. *)
Lemma entries_of_rendered (m : dict) :
  forallb entry_ok m = true ->
  map entry_of (filter (in_ ":") (split "010" (rstrip (render m)))) = m.
Proof.
  unfold render. induction m as [|e m IH]; [reflexivity|].
  cbn [forallb]. intros H. apply andb_true_iff in H as [He Hm].
  destruct (entry_of_line e He) as (He1 & He2 & He3).
  destruct (line_one_line e He) as [Hnl _].
  destruct m as [|e' m].
  - cbn [map join].
    rewrite (split_absent "010" (rstrip (line_of e))).
    + cbn [filter]. rewrite He3. cbn [map]. now rewrite He2.
    + unfold rstrip. rewrite in_rev. apply in_lstrip_with.
      now rewrite in_rev.
  - change (join "010" (map line_of (e :: e' :: m)))
      with (line_of e ++ "010" :: join "010" (map line_of (e' :: m))).
    replace (line_of e ++ "010" :: join "010" (map line_of (e' :: m)))
      with ((line_of e ++ ["010"]) ++ join "010" (map line_of (e' :: m)))
      by (now rewrite <- app_assoc).
    rewrite (rstrip_app_keep _ _ ":" eq_refl eq_refl (join_has_colon e' m)).
    rewrite <- app_assoc. cbn [app].
    rewrite (split_line "010" (line_of e) _ Hnl).
    cbn [filter]. rewrite (line_has_colon e), map_cons, He1.
    f_equal. exact (IH Hm).
Qed.

Lemma render_cons (e : str * str) (m : dict) :
  exists tail, render (e :: m) = line_of e ++ tail.
Proof.
  unfold render. cbn [map join]. destruct (map line_of m) as [|l ls].
  - exists []. now rewrite app_nil_r.
  - eexists. reflexivity.
Qed.

Lemma rendered_starts_clean (m : dict) :
  forallb entry_ok m = true -> lstrip (render m) = render m.
Proof.
  intros H. apply lstrip_with_clean. destruct m as [|[k v] m]; [exact I|].
  cbn [forallb] in H. apply andb_true_iff in H as [He _].
  destruct (entry_ok_parts _ He) as (Hk & _). cbn [fst] in Hk.
  destruct (render_cons (k, v) m) as [tail ->].
  unfold line_of. cbn [fst snd]. change (lit ": ") with [":"; " "].
  rewrite <- !app_assoc. cbn [app].
  destruct k as [|c k].
  - cbn [app]. rewrite <- (app_nil_l (":" :: _)).
    rewrite <- (lstrip_with_app_stop isspace space2 space3 [] _ ":" eq_refl
                  (ascii_apart ":" eq_refl)).
    apply lstrip_with_starts_clean.
  - apply starts_clean_app.
    + rewrite <- Hk. apply strip_starts_clean.
    + discriminate.
    + now apply ascii_apart.
Qed.

(** Entries with distinct names, applied to a mapping that has none of
    them, are appended as they are. *)
Lemma apply_distinct (es : list (str * str)) (d : dict) :
  distinct (keys d ++ map fst es) = true -> apply_entries d es = d ++ es.
Proof.
  unfold apply_entries. revert d. induction es as [|[k v] es IH]; intros d H.
  - now rewrite app_nil_r.
  - cbn [fold_left fst snd map] in *.
    assert (setitem d k v = d ++ [(k, v)]) as ->.
    { clear IH. induction d as [|[a b] d IHd]; [reflexivity|].
      cbn [keys map fst app distinct] in H.
      apply andb_true_iff in H as [Ha Hd]. cbn [setitem].
      destruct (str_eqb a k) eqn:E.
      - apply str_eqb_eq in E. subst a. apply negb_true_iff in Ha.
        rewrite existsb_app in Ha. apply orb_false_iff in Ha as [_ Ha].
        cbn [existsb] in Ha. rewrite str_eqb_refl in Ha. discriminate.
      - cbn [app]. f_equal. apply IHd. exact Hd. }
    rewrite IH.
    + now rewrite <- app_assoc.
    + unfold keys in *. rewrite map_app. cbn [map fst].
      now rewrite <- app_assoc.
Qed.

(** *** Line ends *)

Lemma translate_without_cr (s : str) :
  in_ "013" s = false -> translate_newlines s = s.
Proof.
  induction s as [|a s IH]; [reflexivity|]. rewrite in_cons. intros H.
  apply orb_false_iff in H as [Ha Hs]. cbn [translate_newlines].
  now rewrite Ha, (IH Hs).
Qed.

Lemma rendered_without_cr (m : dict) :
  forallb entry_ok m = true -> in_ "013" (render m) = false.
Proof.
  unfold render. induction m as [|e m IH]; [reflexivity|].
  cbn [forallb]. intros H. apply andb_true_iff in H as [He Hm].
  destruct (line_one_line e He) as [_ Hcr].
  destruct m as [|e' m]; [exact Hcr|].
  change (join "010" (map line_of (e :: e' :: m)))
    with (line_of e ++ "010" :: join "010" (map line_of (e' :: m))).
  rewrite in_app, Hcr, in_cons. cbn [orb]. exact (IH Hm).
Qed.

(** X18. A mapping with distinct names, written one [name: value] line
    per entry with newlines between the lines, is read back unchanged by
    [_static_handler] from the file that holds these bytes, entry for
    entry and in the same order, when its names and values are trimmed and
    hold neither LF nor CR and its names hold no colon.  Values may be
    empty and may hold colons. *)
Theorem headers_round_trip (fs : FS) (d : Path) (n : Z) (data : str)
  (hdrs m : dict) :
  forallb entry_ok m = true ->
  distinct (keys m) = true ->
  _static_handler fs d = Return (n, data, hdrs) ->
  read_bytes fs (d // HEADERS_) = Return (render m) ->
  hdrs = m.
Proof.
  intros Hok Hdist H Hb.
  destruct (static_handler_headers _ _ _ _ _ H) as (t & Ht & ->).
  unfold read_text in Ht. unfold read_bytes in Hb. rewrite Hb in Ht.
  cbn [bind] in Ht.
  destruct (decode (render m)) as [text|] eqn:Hd; [|discriminate].
  apply decode_same in Hd. subst text. cbn [bind] in Ht.
  rewrite (translate_without_cr _ (rendered_without_cr m Hok)) in Ht.
  injection Ht as <-.
  unfold headers_of_text, entries, colon_lines, strip.
  rewrite (rendered_starts_clean m Hok), (entries_of_rendered m Hok).
  now rewrite (apply_distinct m [] Hdist).
Qed.

End HeaderRoundTrip.

(* ================================================================== *)
(** ** The further facts at work on the sites *)
(* ================================================================== *)

Module MoreAtWork.
Import PyStr PyDict PurePath UrlParse Chora Spec Attributes HeaderText Site.
Import PathNotations.
Import ResolverMore DispatchMore StaticMore RequestMore HeaderRoundTrip SiteFacts.
Local Open Scope string_scope.
Local Open Scope list_scope.

(** X1 at the route of [/users/7]. *)
Lemma resolved_is_directory_witness :
  _get_directory site (route "/users/7") = Some (P "www/users/__TEMPLATE__/GET") /\
  is_dir site (P "www/users/__TEMPLATE__/GET") = true /\
  _get_directory site (P "www/users/__TEMPLATE__/GET")
  = Some (P "www/users/__TEMPLATE__/GET").
Proof.
  split; [reflexivity|].
  exact (resolved_is_directory site (route "/users/7")
           (P "www/users/__TEMPLATE__/GET") eq_refl).
Defined.

(** X2 at [/data/GET], with the server in [/work]. *)
Lemma root_template_under_cwd_witness :
  wf (P "/data/GET") = true /\
  is_absolute (P "/data/GET") = true /\
  is_dir Workdir.site (P "/data/GET") = false /\
  _get_directory Workdir.site (P "/data/GET") = Some (P "__TEMPLATE__/data/GET").
Proof.
  split; [reflexivity|]. split; [reflexivity|]. split; [reflexivity|].
  apply (root_template_under_cwd Workdir.site (P "/data/GET"));
    try reflexivity.
  intros k Hk. change (List.length (P "/data/GET")) with 3 in Hk.
  destruct k as [|[|[|k]]]; [lia|reflexivity|reflexivity|lia].
Defined.

(** X3 at the chain that starts at [dynamic/GET]. *)
Lemma handler_is_static_witness :
  get_handler exec 3 (snapshot "/dynamic") site (P "www/dynamic/GET")
  = Some (site, Return (P "/srv/www/hello/GET")) /\
  is_dir site (P "/srv/www/hello/GET") = true /\
  exists_ site (P "/srv/www/hello/GET" // HANDLE) = false.
Proof.
  split; [reflexivity|].
  exact (handler_is_static exec (snapshot "/dynamic") 3 site site
           (P "www/dynamic/GET") (P "/srv/www/hello/GET") eq_refl).
Defined.

(** X5 at [silent/GET]. *)
Lemma silent_handler_never_ends_witness :
  is_dir site (P "/srv/www/silent/GET") = true /\
  exec site (P "/srv/www/silent/GET" ++ [HANDLE]) (snapshot "/silent")
  = (Exited 0 [], stat site) /\
  forall fuel,
    get_handler exec fuel (snapshot "/silent") site (P "/srv/www/silent/GET")
    = None.
Proof.
  split; [reflexivity|]. split; [reflexivity|].
  exact (silent_handler_never_ends exec (snapshot "/silent") site
           (P "/srv/www/silent/GET") []
           eq_refl eq_refl eq_refl eq_refl eq_refl eq_refl).
Defined.

(** X6 at the chain that starts at [dynamic/GET]. *)
Lemma dispatch_read_only_witness :
  (forall fs0 h, snd (exec fs0 h (snapshot "/dynamic")) = stat fs0) /\
  get_handler exec 3 (snapshot "/dynamic") site (P "www/dynamic/GET")
  = Some (site, Return (P "/srv/www/hello/GET")) /\
  site = site.
Proof.
  split; [intros fs0 h; reflexivity|]. split; [reflexivity|].
  exact (dispatch_read_only exec (snapshot "/dynamic") 3 site site
           (P "www/dynamic/GET") (Return (P "/srv/www/hello/GET"))
           (fun fs0 h => eq_refl) eq_refl).
Defined.

(** X9 at [users/__TEMPLATE__/GET], whose HEADERS is empty. *)
Lemma headers_without_colon_witness :
  _static_handler site (P "www/users/__TEMPLATE__/GET")
  = Return (200%Z, lit "user", []) /\
  read_text site (P "www/users/__TEMPLATE__/GET" // HEADERS_) = Return [] /\
  ([] : dict) = [].
Proof.
  split; [reflexivity|]. split; [reflexivity|].
  exact (headers_without_colon site (P "www/users/__TEMPLATE__/GET") 200%Z
           (lit "user") [] [] eq_refl eq_refl eq_refl).
Defined.

(** X10 at [hello/GET] and its header [X-Time]. *)
Lemma headers_are_trimmed_witness :
  In (lit "X-Time", lit "12:30")
     [(lit "Content-Type", lit "text/plain"); (lit "X-Empty", []);
      (lit "X-Time", lit "12:30")] /\
  strip (lit "X-Time") = lit "X-Time" /\ strip (lit "12:30") = lit "12:30" /\
  in_ ":"%char (lit "X-Time") = false /\
  in_ "010"%char (lit "X-Time") = false /\
  in_ "010"%char (lit "12:30") = false.
Proof.
  split; [right; right; left; reflexivity|].
  apply (headers_are_trimmed site (P "www/hello/GET") 200%Z (text ["hi"])
           [(lit "Content-Type", lit "text/plain"); (lit "X-Empty", []);
            (lit "X-Time", lit "12:30")]); [reflexivity|].
  right; right; left; reflexivity.
Defined.

(** X11 at a POST that declares three bytes and brings five. *)
Lemma cached_body_bounded_witness :
  _cache_request Written.post
  = Return (mkSnapshot (lit "POST /api HTTP/1.1")
              (text ["Host: localhost"; "content-length: 3"]) (lit "hel")) /\
  (exists rest, lit "hello" = lit "hel" ++ rest) /\
  (forall v n,
      headers_get (headers Written.post) (lit "Content-Length") = Some v ->
      int_ v = Some n -> (0 <= n)%Z ->
      List.length (lit "hel") = Nat.min (Z.to_nat n) (List.length (lit "hello"))).
Proof.
  split; [reflexivity|].
  destruct (cached_body_bounded Written.post _ eq_refl) as (H1 & _ & H3).
  split; [exact H1|exact H3].
Defined.

(** X12 at a POST whose Content-Length reads [three]. *)
Lemma malformed_content_length_uncaught_witness :
  headers_get (headers Written.post_malformed) (lit "Content-Length")
  = Some (lit "three") /\
  int_ (lit "three") = None /\
  _cache_request Written.post_malformed = Raise ValueError /\
  _handle_request exec 5 (P "www") Written.site Written.post_malformed
    Written.POST
  = Some (Written.site, Uncaught ValueError).
Proof.
  split; [reflexivity|]. split; [reflexivity|].
  exact (malformed_content_length_uncaught exec 5 (P "www") Written.site
           Written.post_malformed Written.POST (lit "three") eq_refl eq_refl).
Defined.

(** X13 at the same POST as X11. *)
Lemma cached_headers_lines_witness :
  split "010"%char (text ["Host: localhost"; "content-length: 3"])
  = [lit "Host: localhost"; lit "content-length: 3"; []].
Proof.
  exact (cached_headers_lines Written.post
           (mkSnapshot (lit "POST /api HTTP/1.1")
              (text ["Host: localhost"; "content-length: 3"]) (lit "hel"))
           eq_refl eq_refl).
Defined.

(** X14 at [/a//b/./../c/] under [www]. *)
Lemma route_under_root_witness :
  seg_ok GET = true /\
  method_dir (P "www") (lit "/a//b/./../c/") GET
  = P "www" ++ [lit "a"; lit "b"; lit ".."; lit "c"] ++ [GET].
Proof.
  split; [reflexivity|].
  exact (proj1 (route_under_root (P "www") (lit "/a//b/./../c/") GET eq_refl)).
Defined.

(** X15 at [/] and at [/?x=1]. *)
Lemma root_path_route_witness :
  method_dir (P "www") (lit "/") GET = P "www" ++ [GET] /\
  method_dir (P "www") (lit "/?x=1") GET = P "www" ++ [GET].
Proof.
  split.
  - exact (root_path_route (P "www") (lit "/") GET eq_refl eq_refl).
  - exact (root_path_route (P "www") (lit "/?x=1") GET eq_refl eq_refl).
Defined.

(** X18 at [api/POST], whose HEADERS holds the text of a mapping with a
    colon in a value and an empty value. *)
Lemma headers_round_trip_witness :
  forallb entry_ok Written.mapping = true /\
  distinct (keys Written.mapping) = true /\
  _static_handler Written.site (P "www/api/POST")
  = Return (201%Z, lit "{}", Written.mapping).
Proof.
  split; [reflexivity|]. split; [reflexivity|].
  assert (exists hdrs, _static_handler Written.site (P "www/api/POST")
                       = Return (201%Z, lit "{}", hdrs)) as [hdrs H].
  { eexists. vm_compute. reflexivity. }
  rewrite H. do 2 f_equal.
  exact (headers_round_trip Written.site (P "www/api/POST") 201%Z (lit "{}")
           hdrs Written.mapping eq_refl eq_refl H eq_refl).
Defined.

End MoreAtWork.
